(** * Marigold normals server: prediction normalisation and request handling

    A shallow embedding of [backend/marigold_server.py].

    Modelling conventions.
    - A numpy floating-point element is an exact rational or NaN
      ([npfloat]).  Rounding, overflow and the two infinities are outside
      the model: every arithmetic step below is the exact one.  The
      constants the handler uses (0.1, 0.5, 1.0, 255) and the value 127.5
      are treated as exact rationals.
    - [result.prediction[0]] is a three-dimensional array; it is a nested
      list indexed [axis 0][axis 1][axis 2], so [pred.ndim == 3] holds by
      typing.
    - Python exceptions are values: a computation returns [Ok v] or
      [Raise e].  The module-level variable [_PIPELINE] and the calls made
      to external collaborators (network, model hub, pipeline, stdout) are
      threaded through an explicit [world]. *)

From Stdlib Require Import ZArith QArith Qround Bool String Ascii DecimalString.
From Stdlib Require Import List Lia.
Import ListNotations.

Open Scope Z_scope.

(** ** Python values and built-ins *)

Module Py.

(** [str.startswith(prefix)]. *)
Fixpoint startswith (s prefix : string) : bool :=
  match prefix with
  | EmptyString => true
  | String c p =>
      match s with
      | EmptyString => false
      | String d s' => if Ascii.eqb c d then startswith s' p else false
      end
  end.

(** [s.split(sep, 1)] for a one-character separator: the list has one
    element when [sep] does not occur and two otherwise. *)
Fixpoint split1 (sep : ascii) (s : string) : list string :=
  match s with
  | EmptyString => [EmptyString]
  | String c s' =>
      if Ascii.eqb c sep then [EmptyString; s']
      else match split1 sep s' with
           | h :: t => String c h :: t
           | [] => [String c EmptyString]
           end
  end.

(** [x or d] on an [Optional[int]]: [None] and [0] are falsy. *)
Definition or_int (x : option Z) (d : Z) : Z :=
  match x with
  | None => d
  | Some n => if Z.eqb n 0 then d else n
  end.

(** [max(a, b)] on integers. *)
Definition max (a b : Z) : Z := Z.max a b.

End Py.

(** ** numpy arrays *)

Module Np.

Inductive npfloat : Type :=
| NaN
| Num (q : Q).

Definition ndarray3 : Type := list (list (list npfloat)).
Definition uint8_array3 : Type := list (list (list Z)).

Definition map3 {A B : Type} (f : A -> B) (a : list (list (list A)))
  : list (list (list B)) :=
  map (map (map f)) a.

(** All elements in row-major order. *)
Definition ravel {A : Type} (a : list (list (list A))) : list A :=
  concat (concat a).

(** [a.shape[0]], [a.shape[1]], [a.shape[2]].  An axis nested under a
    zero-length axis reads as zero. *)
Definition shape0 {A : Type} (a : list (list (list A))) : nat := length a.
Definition shape1 {A : Type} (a : list (list (list A))) : nat :=
  length (hd [] a).
Definition shape2 {A : Type} (a : list (list (list A))) : nat :=
  length (hd [] (hd [] a)).

Definition item (a : ndarray3) (i j k : nat) : npfloat :=
  nth k (nth j (nth i a []) []) NaN.

(** [np.transpose(a, (1, 2, 0))]: the result has shape
    [(shape1, shape2, shape0)] and [out[j, k, i] = a[i, j, k]]. *)
Definition transpose_120 (a : ndarray3) : ndarray3 :=
  map (fun j =>
         map (fun k =>
                map (fun i => item a i j k) (seq 0 (shape0 a)))
             (seq 0 (shape2 a)))
      (seq 0 (shape1 a)).

(** The channel-first arrangement, shape [(3, H, W)], of a channel-last
    array of shape [(H, W, 3)]: [cf[c, h, w] = cl[h, w, c]]. *)
Definition channel_first (cl : ndarray3) : ndarray3 :=
  map (fun c => map (map (fun px => nth c px NaN)) cl) (seq 0 3).

(** [a] has shape [(length a, W, C)]. *)
Definition has_shape {A : Type} (W C : nat) (a : list (list (list A)))
  : Prop :=
  Forall (fun row => length row = W /\ Forall (fun px => length px = C) row) a.

Definition isnan (x : npfloat) : bool :=
  match x with NaN => true | Num _ => false end.

(** [np.isnan(a).any()]. *)
Definition any_isnan (a : ndarray3) : bool := existsb isnan (ravel a).

(** [np.nan_to_num(a, nan=0.0)] on the values of the model. *)
Definition nan_to_num0 (x : npfloat) : npfloat :=
  match x with NaN => Num 0 | Num q => Num q end.

Definition Qltb (a b : Q) : bool := negb (Qle_bool b a).

Definition fsub (x y : npfloat) : npfloat :=
  match x, y with
  | Num a, Num b => Num (a - b)
  | _, _ => NaN
  end.

Definition fadd (x y : npfloat) : npfloat :=
  match x, y with
  | Num a, Num b => Num (a + b)
  | _, _ => NaN
  end.

Definition fmul (x y : npfloat) : npfloat :=
  match x, y with
  | Num a, Num b => Num (a * b)
  | _, _ => NaN
  end.

(** Division.  A zero divisor gives NaN here (IEEE gives an infinity for
    a non-zero numerator); the handler divides by a span above 0.1 only. *)
Definition fdiv (x y : npfloat) : npfloat :=
  match x, y with
  | Num a, Num b => if Qeq_bool b 0 then NaN else Num (a / b)
  | _, _ => NaN
  end.

(** [x > y]; a comparison with NaN is false. *)
Definition fgt (x y : npfloat) : bool :=
  match x, y with
  | Num a, Num b => Qltb b a
  | _, _ => false
  end.

(** [np.minimum] and [np.maximum] propagate NaN. *)
Definition fminimum (x y : npfloat) : npfloat :=
  match x, y with
  | Num a, Num b => if Qle_bool a b then Num a else Num b
  | _, _ => NaN
  end.

Definition fmaximum (x y : npfloat) : npfloat :=
  match x, y with
  | Num a, Num b => if Qle_bool a b then Num b else Num a
  | _, _ => NaN
  end.

(** [a.min()], [a.max()] and [a.mean()] over all elements; [None] stands
    for the [ValueError] numpy raises on a zero-size array ([mean] of a
    zero-size array is NaN). *)
Definition reduce (f : npfloat -> npfloat -> npfloat) (l : list npfloat)
  : option npfloat :=
  match l with
  | [] => None
  | x :: t => Some (fold_left f t x)
  end.

Definition amin (a : ndarray3) : option npfloat := reduce fminimum (ravel a).
Definition amax (a : ndarray3) : option npfloat := reduce fmaximum (ravel a).

Definition mean (a : ndarray3) : npfloat :=
  let l := ravel a in
  fdiv (fold_left fadd l (Num 0)) (Num (inject_Z (Z.of_nat (length l)))).

(** [np.clip(x, 0.0, 1.0)]. *)
Definition clip01 (x : npfloat) : npfloat :=
  fminimum (fmaximum x (Num 0)) (Num 1).

(** The same on a rational. *)
Definition Qclip01 (q : Q) : Q :=
  let y := if Qle_bool q 0 then 0%Q else q in
  if Qle_bool y 1 then y else 1%Q.

(** Truncation toward zero. *)
Definition Qtrunc (q : Q) : Z := Z.quot (Qnum q) (Zpos (Qden q)).

(** [x.astype(np.uint8)]: truncate toward zero, keep the low eight bits.
    numpy leaves the cast of NaN to the platform; it reads 0 here. *)
Definition astype_uint8 (x : npfloat) : Z :=
  match x with
  | NaN => 0
  | Num q => Qtrunc q mod 256
  end.

(** [np.ones_like(a) * np.array([0.5, 0.5, 1.0])]: the three-element
    vector is broadcast along the last axis, which has to be of length 3
    or 1; [None] is the broadcasting [ValueError]. *)
Definition flat_normal : list npfloat := [Num (1 # 2); Num (1 # 2); Num 1].

Definition broadcast_flat (px : list npfloat) : option (list npfloat) :=
  match length px with
  | 1%nat | 3%nat => Some (map (fmul (Num 1)) flat_normal)
  | _ => None
  end.

Fixpoint sequence {A : Type} (l : list (option A)) : option (list A) :=
  match l with
  | [] => Some []
  | None :: _ => None
  | Some x :: t =>
      match sequence t with
      | Some t' => Some (x :: t')
      | None => None
      end
  end.

Definition ones_like_times_flat (a : ndarray3) : option ndarray3 :=
  sequence (map (fun row => sequence (map broadcast_flat row)) a).

End Np.

(** ** The server *)

Module Server.

Import Np.

Local Open Scope string_scope.
Local Open Scope list_scope.

(** Exceptions.  [HTTPException] is FastAPI's; [Exception] is any other
    exception, carrying [str(e)]. *)
Inductive exn : Type :=
| HTTPException (status_code : Z) (detail : string)
| Exception (msg : string).

Inductive result (A : Type) : Type :=
| Ok (a : A)
| Raise (e : exn).
Arguments Ok {A} a.
Arguments Raise {A} e.

(** [str(e)], as spliced into the [detail] f-strings. *)
Definition str (e : exn) : string :=
  match e with
  | HTTPException c d =>
      DecimalString.NilZero.string_of_int (Z.to_int c) ++ ": " ++ d
  | Exception m => m
  end.

Inductive torch_dtype : Type := float16 | float32.

(** Lines written to stdout by [print]. *)
Inductive log_line : Type :=
| LogLoadError (e : string)
| LogRunning (steps : Z)
| LogNaNWarning
| LogStats (p_min p_max p_mean : npfloat)
| LogLowContrast.

(** What a run can be observed to do: entering [_load_pipeline], calling
    the network, the model hub or the pipeline, and printing a line. *)
Inductive event : Type :=
| EvLoadPipeline
| EvHttpGet (url : string) (timeout : Z)
| EvFromPretrained (model : string) (dtype : torch_dtype)
| EvTo (device : string)
| EvPipeCall (num_inference_steps : Z) (seeded : bool)
| EvPrint (line : log_line).

(** [MarigoldRequest] and [MarigoldResponse]. *)
Record MarigoldRequest : Type := {
  image_url : string;
  num_inference_steps : option Z;
  seed : option Z
}.

Record MarigoldResponse : Type := { normal_map_base64 : string }.

(** A field of the JSON body: left out, [null], or a value. *)
Inductive json_field (A : Type) : Type :=
| Omitted
| Null
| Value (a : A).
Arguments Omitted {A}.
Arguments Null {A}.
Arguments Value {A} a.

(** Validation of the body against [MarigoldRequest]: a field that is left
    out takes the declared default ([30] and [None]); [null] is [None]. *)
Definition optional_field {A : Type} (dflt : option A) (f : json_field A)
  : option A :=
  match f with
  | Omitted => dflt
  | Null => None
  | Value a => Some a
  end.

Definition parse_request (url : string) (steps seed_ : json_field Z)
  : MarigoldRequest :=
  {| image_url := url;
     num_inference_steps := optional_field (Some 30) steps;
     seed := optional_field None seed_ |}.

(** *** Post-processing of the raw prediction (lines 148-175) *)

(** Lines 151-153. *)
Definition fix_axes (pred : ndarray3) : ndarray3 :=
  if Nat.eqb (shape0 pred) 3 then transpose_120 pred else pred.

(** Lines 156-158. *)
Definition sanitize (pred : ndarray3) : ndarray3 :=
  if any_isnan pred then map3 nan_to_num0 pred else pred.

(** Lines 174-175. *)
Definition quantize (v : npfloat) : Z :=
  astype_uint8 (fmul (clip01 v) (Num 255)).

(** Lines 166-172: the array handed to [np.clip]. *)
Definition rescale (pred : ndarray3) (p_min p_max : npfloat)
  : list log_line * result ndarray3 :=
  let range_span := fsub p_max p_min in
  if fgt range_span (Num (1 # 10)) then
    ([], Ok (map3 (fun v => fdiv (fsub v p_min) range_span) pred))
  else
    ([LogLowContrast],
     match ones_like_times_flat pred with
     | Some flat => Ok flat
     | None => Raise (Exception "operands could not be broadcast together")
     end).

Definition map_result {A B : Type} (f : A -> B) (r : result A) : result B :=
  match r with
  | Ok a => Ok (f a)
  | Raise e => Raise e
  end.

(** The values handed to [np.clip], with the lines printed on the way. *)
Definition normalized_floats (pred0 : ndarray3)
  : list log_line * result ndarray3 :=
  let pred := fix_axes pred0 in
  let warn := if any_isnan pred then [LogNaNWarning] else [] in
  let pred := sanitize pred in
  match amin pred, amax pred with
  | Some p_min, Some p_max =>
      let (low, r) := rescale pred p_min p_max in
      (warn ++ LogStats p_min p_max (mean pred) :: low, r)
  | _, _ =>
      (warn,
       Raise (Exception
         "zero-size array to reduction operation minimum which has no identity"))
  end.

(** Lines 148-175: the uint8 array handed to [Image.fromarray]. *)
Definition normalize_prediction (pred : ndarray3)
  : list log_line * result uint8_array3 :=
  let (log, r) := normalized_floats pred in
  (log, map_result (map3 quantize) r).


(** Line 133. *)
Definition effective_steps (req : MarigoldRequest) : Z :=
  Py.max (Py.or_int (num_inference_steps req) 20) 20.

(** *** External collaborators *)

Definition bytes : Type := list Byte.byte.

(** The pipeline's result object.  [None] in [prediction] is a result
    without that attribute ([hasattr] is false); [images] is what
    [getattr(result, "images", None)] returns. *)
Record PipeResult (Image : Type) : Type := {
  prediction : option (list ndarray3);
  images : option (list Image)
}.
Arguments prediction {Image} _.
Arguments images {Image} _.

(** What the libraries do on a given host: each entry either returns or
    raises, and the handler does not look inside. *)
Record Env (Image Pipe Response Generator : Type) : Type := {
  b64decode : string -> result bytes;
  Image_open_convert_RGB : bytes -> result Image;
  requests_get : string -> Z -> result Response;
  raise_for_status : Response -> result unit;
  content : Response -> bytes;
  cuda_is_available : bool;
  from_pretrained : string -> torch_dtype -> result Pipe;
  to : Pipe -> string -> result Pipe;
  device : Pipe -> string;
  Generator_manual_seed : string -> Z -> result Generator;
  call : Pipe -> Image -> Z -> option Generator -> result (PipeResult Image);
  Image_fromarray : uint8_array3 -> result Image;
  save_PNG : Image -> result bytes;
  b64encode_ascii : bytes -> string
}.
Arguments b64decode {Image Pipe Response Generator} _ _.
Arguments Image_open_convert_RGB {Image Pipe Response Generator} _ _.
Arguments requests_get {Image Pipe Response Generator} _ _ _.
Arguments raise_for_status {Image Pipe Response Generator} _ _.
Arguments content {Image Pipe Response Generator} _ _.
Arguments cuda_is_available {Image Pipe Response Generator} _.
Arguments from_pretrained {Image Pipe Response Generator} _ _ _.
Arguments to {Image Pipe Response Generator} _ _ _.
Arguments device {Image Pipe Response Generator} _ _.
Arguments Generator_manual_seed {Image Pipe Response Generator} _ _ _.
Arguments call {Image Pipe Response Generator} _ _ _ _ _.
Arguments Image_fromarray {Image Pipe Response Generator} _ _.
Arguments save_PNG {Image Pipe Response Generator} _ _.
Arguments b64encode_ascii {Image Pipe Response Generator} _ _.

Section Handler.

Context {Image Pipe Response Generator : Type}.
Variable E : Env Image Pipe Response Generator.

(** Process state: the module-level [_PIPELINE] and the calls made so
    far, most recent first. *)
Record world : Type := {
  _PIPELINE : option Pipe;
  calls : list event
}.

Definition M (A : Type) : Type := world -> result A * world.

Definition ret {A : Type} (a : A) : M A := fun w => (Ok a, w).

Definition raise {A : Type} (e : exn) : M A := fun w => (Raise e, w).

Definition bind {A B : Type} (m : M A) (k : A -> M B) : M B :=
  fun w =>
    match m w with
    | (Ok a, w') => k a w'
    | (Raise e, w') => (Raise e, w')
    end.

(** [try: m  except Exception as e: h e]. *)
Definition try_except {A : Type} (m : M A) (h : exn -> M A) : M A :=
  fun w =>
    match m w with
    | (Ok a, w') => (Ok a, w')
    | (Raise e, w') => h e w'
    end.

Definition emit (ev : event) : M unit :=
  fun w => (Ok tt, {| _PIPELINE := _PIPELINE w; calls := ev :: calls w |}).

Definition print (l : log_line) : M unit := emit (EvPrint l).

Fixpoint print_all (ls : list log_line) : M unit :=
  match ls with
  | [] => ret tt
  | l :: ls' => bind (print l) (fun _ => print_all ls')
  end.

(** A library call that touches neither [_PIPELINE] nor the outside. *)
Definition lift {A : Type} (r : result A) : M A := fun w => (r, w).

Definition set_PIPELINE (p : Pipe) : M unit :=
  fun w => (Ok tt, {| _PIPELINE := Some p; calls := calls w |}).

Definition get_PIPELINE : M (option Pipe) := fun w => (Ok (_PIPELINE w), w).

Notation "x <- m ;; k" := (bind m (fun x => k))
  (at level 61, m at next level, right associativity).
Notation "m ;;; k" := (bind m (fun _ => k))
  (at level 61, right associativity).

(** Lines 69-89. *)
Definition _load_pipeline : M Pipe :=
  emit EvLoadPipeline ;;;
  cached <- get_PIPELINE ;;
  match cached with
  | Some p => ret p
  | None =>
      try_except
        (let device := if cuda_is_available E then "cuda" else "cpu" in
         let dtype := if String.eqb device "cuda" then float16 else float32 in
         emit (EvFromPretrained "prs-eth/marigold-normals-v1-1" dtype) ;;;
         pipe <- lift (from_pretrained E "prs-eth/marigold-normals-v1-1" dtype) ;;
         emit (EvTo device) ;;;
         pipe <- lift (to E pipe device) ;;
         set_PIPELINE pipe ;;;
         ret pipe)
        (fun e => print (LogLoadError (str e)) ;;; raise e)
  end.

(** Lines 92-108. *)
Definition _fetch_image_from_url (url : string) : M Image :=
  try_except
    (if Py.startswith url "data:image" then
       encoded <- match Py.split1 "," url with
                  | [_; encoded] => ret encoded
                  | _ => raise (Exception
                           "not enough values to unpack (expected 2, got 1)")
                  end ;;
       image_data <- lift (b64decode E encoded) ;;
       lift (Image_open_convert_RGB E image_data)
     else
       emit (EvHttpGet url 15) ;;;
       resp <- lift (requests_get E url 15) ;;
       lift (raise_for_status E resp) ;;;
       lift (Image_open_convert_RGB E (content E resp)))
    (fun e =>
       raise (HTTPException 400 ("Failed to load/parse image: " ++ str e))).

(** Lines 125-142: the call of the pipeline. *)
Definition run_inference (req : MarigoldRequest) (pipe : Pipe) (img : Image)
  : M (PipeResult Image) :=
  try_except
    (generator <- match seed req with
                  | Some s =>
                      g <- lift (Generator_manual_seed E (device E pipe) s) ;;
                      ret (Some g)
                  | None => ret None
                  end ;;
     let steps := effective_steps req in
     print (LogRunning steps) ;;;
     emit (EvPipeCall steps
             (match generator with Some _ => true | None => false end)) ;;;
     lift (call E pipe img steps generator))
    (fun e =>
       raise (HTTPException 500 ("Model inference failed: " ++ str e))).

(** Lines 144-178: the image to return, if the result holds one. *)
Definition select_normal_img (res : PipeResult Image) : M (option Image) :=
  match prediction res with
  | Some preds =>
      pred <- match preds with
              | pred :: _ => ret pred
              | [] => raise (Exception "index 0 is out of bounds")
              end ;;
      let (log, r) := normalize_prediction pred in
      print_all log ;;;
      arr <- lift r ;;
      normal_img <- lift (Image_fromarray E arr) ;;
      ret (Some normal_img)
  | None =>
      match images res with
      | Some (normal_img :: _) => ret (Some normal_img)
      | _ => ret None
      end
  end.

(** Lines 180-190. *)
Definition encode_response (normal_img : option Image) : M MarigoldResponse :=
  match normal_img with
  | None =>
      raise (HTTPException 500 "Model returned no images or prediction")
  | Some im =>
      png_bytes <- lift (save_PNG E im) ;;
      let b64 := b64encode_ascii E png_bytes in
      ret {| normal_map_base64 := "data:image/png;base64," ++ b64 |}
  end.

(** Lines 111-190. *)
Definition marigold_normals (req : MarigoldRequest) : M MarigoldResponse :=
  img <- _fetch_image_from_url (image_url req) ;;
  pipe <- try_except _load_pipeline
            (fun e =>
               raise (HTTPException 500 ("Failed to load model: " ++ str e))) ;;
  res <- run_inference req pipe img ;;
  normal_img <- select_normal_img res ;;
  encode_response normal_img.

(** *** The two branches of image acquisition as plain results *)

Definition bind_result {A B : Type} (r : result A) (k : A -> result B)
  : result B :=
  match r with
  | Ok a => k a
  | Raise e => Raise e
  end.

(** What the [except] clause of [_fetch_image_from_url] makes of a
    result. *)
Definition as_input_error {A : Type} (r : result A) : result A :=
  match r with
  | Ok a => Ok a
  | Raise e =>
      Raise (HTTPException 400 ("Failed to load/parse image: " ++ str e))
  end.

(** Lines 97-99 without the world. *)
Definition decode_data_uri (url : string) : result Image :=
  match Py.split1 "," url with
  | [_; encoded] =>
      bind_result (b64decode E encoded) (Image_open_convert_RGB E)
  | _ => Raise (Exception "not enough values to unpack (expected 2, got 1)")
  end.

(** Lines 102-104 without the world. *)
Definition fetch_remote (url : string) : result Image :=
  bind_result (requests_get E url 15)
    (fun resp =>
       bind_result (raise_for_status E resp)
         (fun _ => Image_open_convert_RGB E (content E resp))).

(** *** Reasoning about the calls a computation makes *)

(** [m] leaves the earlier calls in place and every call it adds
    satisfies [P]. *)
Definition emits_only {A : Type} (P : event -> Prop) (m : M A) : Prop :=
  forall w, exists new,
    calls (snd (m w)) = new ++ calls w /\ Forall P new.

(** [m] does not assign [_PIPELINE]. *)
Definition keeps_PIPELINE {A : Type} (m : M A) : Prop :=
  forall w, _PIPELINE (snd (m w)) = _PIPELINE w.

End Handler.

Arguments world : clear implicits.
Arguments M : clear implicits.

(** *** A sample host *)

(** Every library call succeeds except the network, which is down; the
    model hub answers when [hub_up] and the pipeline returns [res]. *)
Definition sample_env (hub_up : bool) (res : PipeResult uint8_array3)
  : Env uint8_array3 string bytes Z :=
  {| b64decode := fun _ => Ok [];
     Image_open_convert_RGB := fun _ => Ok [[[0; 0; 0]]];
     requests_get := fun _ _ => Raise (Exception "Connection refused");
     raise_for_status := fun _ => Ok tt;
     content := fun r => r;
     cuda_is_available := false;
     from_pretrained := fun _ _ =>
       if hub_up then Ok "pipe" else Raise (Exception "model unavailable");
     to := fun p _ => Ok p;
     device := fun _ => "cpu";
     Generator_manual_seed := fun _ s => Ok s;
     call := fun _ _ _ _ => Ok res;
     Image_fromarray := fun a => Ok a;
     save_PNG := fun _ => Ok [];
     b64encode_ascii := fun _ => "" |}.

Definition fresh_world : world string :=
  {| _PIPELINE := None; calls := [] |}.

Definition data_uri_request : MarigoldRequest :=
  parse_request "data:image/png;base64,iVBORw0KGgo=" (Value 5) Omitted.

Definition remote_request : MarigoldRequest :=
  parse_request "http://localhost:9/missing.png" Omitted Omitted.

(** *** Sample inputs *)

(** One pixel [(0.0, 0.5, 1.0)], channel-last. *)
Definition ramp : ndarray3 := [[[Num 0; Num (1 # 2); Num 1]]].

(** One pixel, every channel 0.5. *)
Definition flat_half : ndarray3 := [[[Num (1 # 2); Num (1 # 2); Num (1 # 2)]]].

(** One pixel with a NaN in the first channel. *)
Definition with_nan : ndarray3 := [[[NaN; Num (1 # 2); Num 1]]].

(** Two rows of one pixel, channel-last: [(0, 0.5, 1)] over [(1, 1, 0)]. *)
Definition two_rows : ndarray3 :=
  [[[Num 0; Num (1 # 2); Num 1]]; [[Num 1; Num 1; Num 0]]].

(** Three rows of one pixel, channel-last, shape [(3, 1, 3)]. *)
Definition three_rows : ndarray3 :=
  [[[Num 0; Num (1 # 2); Num 1]];
   [[Num 1; Num 1; Num 0]];
   [[Num (1 # 4); Num 0; Num (3 # 4)]]].

End Server.

(** ** Further vocabulary for the properties *)

Module Coverage.

Import Np Server.

Local Open Scope string_scope.
Local Open Scope list_scope.

(** [c in s] for a character [c]. *)
Fixpoint str_contains (c : ascii) (s : string) : bool :=
  match s with
  | EmptyString => false
  | String d s' => if Ascii.eqb d c then true else str_contains c s'
  end.

(** Calls to the model hub made by [_load_pipeline]. *)
Definition is_hub_call (ev : event) : bool :=
  match ev with
  | EvFromPretrained _ _ | EvTo _ => true
  | _ => false
  end.

Definition is_pipe_call (ev : event) : bool :=
  match ev with
  | EvPipeCall _ _ => true
  | _ => false
  end.

(** Number of pipeline calls in a trace. *)
Definition pipe_calls (l : list event) : nat :=
  length (filter is_pipe_call l).

(** The device and the precision chosen on lines 79-82. *)
Definition chosen_device {Image Pipe Response Generator : Type}
  (E : Env Image Pipe Response Generator) : string :=
  if cuda_is_available E then "cuda" else "cpu".

Definition chosen_dtype {Image Pipe Response Generator : Type}
  (E : Env Image Pipe Response Generator) : torch_dtype :=
  if cuda_is_available E then float16 else float32.

(** [GET /health] (lines 193-195): the JSON object returned. *)
Definition health : list (string * string) := [("status", "ok")].

(** *** More sample hosts and inputs *)

(** A host whose pipeline call fails. *)
Definition failing_call_env : Env uint8_array3 string bytes Z :=
  {| b64decode := fun _ => Ok [];
     Image_open_convert_RGB := fun _ => Ok [[[0; 0; 0]]];
     requests_get := fun _ _ => Raise (Exception "Connection refused");
     raise_for_status := fun _ => Ok tt;
     content := fun r => r;
     cuda_is_available := true;
     from_pretrained := fun _ _ => Ok "pipe";
     to := fun p _ => Ok p;
     device := fun _ => "cuda";
     Generator_manual_seed := fun _ s =>
       if Z.ltb s 0 then Raise (Exception "bad seed") else Ok s;
     call := fun _ _ _ _ => Raise (Exception "CUDA out of memory");
     Image_fromarray := fun a => Ok a;
     save_PNG := fun _ => Ok [];
     b64encode_ascii := fun _ => "" |}.

Definition warm_world : world string :=
  {| _PIPELINE := Some "pipe"; calls := [] |}.

Definition seeded_request (s : Z) : MarigoldRequest :=
  parse_request "data:image/png;base64,iVBORw0KGgo=" Omitted (Value s).

(** Two pixels, every channel NaN. *)
Definition all_nan : ndarray3 := [[[NaN; NaN; NaN]; [NaN; NaN; NaN]]].

(** One pixel with four channels, all equal. *)
Definition four_channels : ndarray3 := [[[Num 1; Num 1; Num 1; Num 1]]].

End Coverage.

(** * Properties *)

Import Np Server.

(** ** Rational arithmetic used by the normalisation *)

Section Rationals.

Lemma Qltb_lt (a b : Q) : Qltb a b = true <-> (a < b)%Q.
Proof.
  unfold Qltb. rewrite negb_true_iff.
  split; intro H.
  - apply Qnot_le_lt. intro Hle. apply Qle_bool_iff in Hle. congruence.
  - destruct (Qle_bool b a) eqn:Hb; [|reflexivity].
    apply Qle_bool_iff in Hb. exfalso. apply (Qlt_not_le _ _ H Hb).
Qed.

Lemma Qle_bool_false (a b : Q) : Qle_bool a b = false -> (b < a)%Q.
Proof.
  intro H. apply Qnot_le_lt. intro Hle. apply Qle_bool_iff in Hle. congruence.
Qed.

Lemma Qtrunc_nonneg (q : Q) : (0 <= q)%Q -> Qtrunc q = Qfloor q.
Proof.
  destruct q as [n d]. unfold Qle, Qtrunc, Qfloor. simpl. intro H.
  apply Z.quot_div_nonneg; lia.
Qed.

Lemma Qfloor_range (q : Q) (n : Z) :
  (0 <= q)%Q -> (q <= inject_Z n)%Q -> 0 <= Qfloor q <= n.
Proof.
  intros H0 Hn. split.
  - change 0 with (Qfloor 0). apply Qfloor_resp_le. exact H0.
  - rewrite <- (Qfloor_Z n). apply Qfloor_resp_le. exact Hn.
Qed.

End Rationals.

(** ** Clipping and quantisation *)

Section Quantisation.

Lemma clip01_Num (q : Q) : clip01 (Num q) = Num (Qclip01 q).
Proof.
  unfold clip01, Qclip01, fmaximum, fminimum.
  destruct (Qle_bool q 0); [reflexivity|].
  destruct (Qle_bool q 1); reflexivity.
Qed.

Lemma Qclip01_range (q : Q) : (0 <= Qclip01 q <= 1)%Q.
Proof.
  unfold Qclip01.
  destruct (Qle_bool q 0) eqn:H0; simpl.
  - split; [apply Qle_refl | discriminate].
  - apply Qle_bool_false in H0.
    destruct (Qle_bool q 1) eqn:H1.
    + apply Qle_bool_iff in H1. split; [apply Qlt_le_weak; exact H0 | exact H1].
    + split; [discriminate | apply Qle_refl].
Qed.


Lemma Qclip01_mono (p q : Q) : (p <= q)%Q -> (Qclip01 p <= Qclip01 q)%Q.
Proof.
  intro Hpq. unfold Qclip01.
  destruct (Qle_bool p 0) eqn:Hp0.
  - simpl. apply (proj1 (Qclip01_range q)).
  - apply Qle_bool_false in Hp0.
    assert (Hq0 : Qle_bool q 0 = false).
    { destruct (Qle_bool q 0) eqn:Hq; [|reflexivity].
      apply Qle_bool_iff in Hq. exfalso.
      apply (Qlt_not_le _ _ Hp0). apply (Qle_trans _ q); assumption. }
    rewrite Hq0.
    destruct (Qle_bool p 1) eqn:Hp1; destruct (Qle_bool q 1) eqn:Hq1.
    + exact Hpq.
    + apply Qle_bool_iff in Hp1. exact Hp1.
    + apply Qle_bool_iff in Hq1. apply Qle_bool_false in Hp1. exfalso.
      apply (Qlt_not_le _ _ Hp1). apply (Qle_trans _ q); assumption.
    + apply Qle_refl.
Qed.

Lemma scaled_range (c : Q) :
  (0 <= c)%Q -> (c <= 1)%Q -> (0 <= c * 255)%Q /\ (c * 255 <= inject_Z 255)%Q.
Proof.
  intros H0 H1. split.
  - apply Qmult_le_0_compat; [exact H0 | discriminate].
  - setoid_replace (inject_Z 255) with (1 * 255)%Q by reflexivity.
    apply Qmult_le_compat_r; [exact H1 | discriminate].
Qed.

Lemma quantize_Num (q : Q) : quantize (Num q) = Qfloor (Qclip01 q * 255).
Proof.
  unfold quantize. rewrite clip01_Num. cbn [fmul astype_uint8].
  destruct (Qclip01_range q) as [H0 H1].
  destruct (scaled_range _ H0 H1) as [Ha Hb].
  rewrite Qtrunc_nonneg by exact Ha.
  pose proof (Qfloor_range _ 255 Ha Hb) as Hr.
  rewrite Z.mod_small; [reflexivity | lia].
Qed.

Lemma quantize_range (q : Q) : 0 <= quantize (Num q) <= 255.
Proof.
  rewrite quantize_Num.
  destruct (Qclip01_range q) as [H0 H1].
  destruct (scaled_range _ H0 H1) as [Ha Hb].
  apply Qfloor_range; assumption.
Qed.

Lemma quantize_mono (p q : Q) :
  (p <= q)%Q -> quantize (Num p) <= quantize (Num q).
Proof.
  intro H. rewrite !quantize_Num. apply Qfloor_resp_le.
  apply Qmult_le_compat_r; [apply Qclip01_mono; exact H | discriminate].
Qed.


End Quantisation.

(** ** Reductions over a NaN-free array *)

Section Reductions.

Lemma fold_fminimum (t : list npfloat) :
  existsb isnan t = false ->
  forall a : Q,
  exists m : Q,
    fold_left fminimum t (Num a) = Num m /\
    (m = a \/ In (Num m) t) /\
    (m <= a)%Q /\
    (forall q, In (Num q) t -> (m <= q)%Q).
Proof.
  induction t as [|x t IH]; intros Hnan a.
  - exists a. simpl. repeat split; auto using Qle_refl. intros q [].
  - simpl in Hnan. apply orb_false_iff in Hnan. destruct Hnan as [Hx Ht].
    destruct x as [|b]; [discriminate|]. simpl.
    destruct (Qle_bool a b) eqn:Hab.
    + apply Qle_bool_iff in Hab.
      destruct (IH Ht a) as (m & Hm & Hin & Hle & Hall).
      exists m. repeat split; auto.
      * destruct Hin; auto.
      * intros q [Hq | Hq]; [inversion Hq; subst|]; eauto using Qle_trans.
    + apply Qle_bool_false in Hab.
      destruct (IH Ht b) as (m & Hm & Hin & Hle & Hall).
      exists m. repeat split; auto.
      * destruct Hin as [-> | Hin]; auto.
      * eauto using Qle_trans, Qlt_le_weak.
      * intros q [Hq | Hq]; [inversion Hq; subst|]; auto.
Qed.

Lemma fold_fmaximum (t : list npfloat) :
  existsb isnan t = false ->
  forall a : Q,
  exists m : Q,
    fold_left fmaximum t (Num a) = Num m /\
    (m = a \/ In (Num m) t) /\
    (a <= m)%Q /\
    (forall q, In (Num q) t -> (q <= m)%Q).
Proof.
  induction t as [|x t IH]; intros Hnan a.
  - exists a. simpl. repeat split; auto using Qle_refl. intros q [].
  - simpl in Hnan. apply orb_false_iff in Hnan. destruct Hnan as [Hx Ht].
    destruct x as [|b]; [discriminate|]. simpl.
    destruct (Qle_bool a b) eqn:Hab.
    + apply Qle_bool_iff in Hab.
      destruct (IH Ht b) as (m & Hm & Hin & Hle & Hall).
      exists m. repeat split; auto.
      * destruct Hin as [-> | Hin]; auto.
      * eauto using Qle_trans.
      * intros q [Hq | Hq]; [inversion Hq; subst|]; auto.
    + apply Qle_bool_false in Hab.
      destruct (IH Ht a) as (m & Hm & Hin & Hle & Hall).
      exists m. repeat split; auto.
      * destruct Hin; auto.
      * intros q [Hq | Hq]; [inversion Hq; subst|]; auto.
        eauto using Qle_trans, Qlt_le_weak.
Qed.

Lemma amin_spec (a : ndarray3) (p_min : npfloat) :
  any_isnan a = false -> amin a = Some p_min ->
  exists lo : Q,
    p_min = Num lo /\ In (Num lo) (ravel a) /\
    (forall q, In (Num q) (ravel a) -> (lo <= q)%Q).
Proof.
  unfold any_isnan, amin, reduce. intros Hnan Hmin.
  destruct (ravel a) as [|x t]; [discriminate|].
  simpl in Hnan. apply orb_false_iff in Hnan. destruct Hnan as [Hx Ht].
  destruct x as [|b]; [discriminate|].
  destruct (fold_fminimum t Ht b) as (m & Hm & Hin & Hle & Hall).
  exists m. rewrite Hm in Hmin. inversion Hmin; subst. repeat split.
  - destruct Hin as [-> | Hin]; [left; reflexivity | right; exact Hin].
  - intros q [Hq | Hq]; [inversion Hq; subst; exact Hle | auto].
Qed.

Lemma amax_spec (a : ndarray3) (p_max : npfloat) :
  any_isnan a = false -> amax a = Some p_max ->
  exists hi : Q,
    p_max = Num hi /\ In (Num hi) (ravel a) /\
    (forall q, In (Num q) (ravel a) -> (q <= hi)%Q).
Proof.
  unfold any_isnan, amax, reduce. intros Hnan Hmax.
  destruct (ravel a) as [|x t]; [discriminate|].
  simpl in Hnan. apply orb_false_iff in Hnan. destruct Hnan as [Hx Ht].
  destruct x as [|b]; [discriminate|].
  destruct (fold_fmaximum t Ht b) as (m & Hm & Hin & Hle & Hall).
  exists m. rewrite Hm in Hmax. inversion Hmax; subst. repeat split.
  - destruct Hin as [-> | Hin]; [left; reflexivity | right; exact Hin].
  - intros q [Hq | Hq]; [inversion Hq; subst; exact Hle | auto].
Qed.

Lemma ravel_map3 {A B : Type} (f : A -> B) (a : list (list (list A))) :
  ravel (map3 f a) = map f (ravel a).
Proof.
  unfold ravel, map3. rewrite <- !concat_map. reflexivity.
Qed.

Lemma sanitize_eq (a : ndarray3) : sanitize a = map3 nan_to_num0 a.
Proof.
  unfold sanitize. destruct (any_isnan a) eqn:Hn; [reflexivity|].
  unfold any_isnan, ravel in Hn. unfold map3.
  induction a as [|row a IHa]; [reflexivity|].
  simpl in *. rewrite concat_app, existsb_app in Hn.
  apply orb_false_iff in Hn. destruct Hn as [Hrow Ha].
  f_equal; [clear IHa Ha | apply IHa; exact Ha].
  induction row as [|px row IHr]; [reflexivity|].
  simpl in *. rewrite existsb_app in Hrow.
  apply orb_false_iff in Hrow. destruct Hrow as [Hpx Hr].
  f_equal; [clear IHr Hr | apply IHr; exact Hr].
  induction px as [|v px IHp]; [reflexivity|].
  simpl in *. apply orb_false_iff in Hpx. destruct Hpx as [Hv Hp].
  f_equal; [destruct v; [discriminate | reflexivity] | apply IHp; exact Hp].
Qed.

Lemma sanitize_no_nan (a : ndarray3) : any_isnan (sanitize a) = false.
Proof.
  rewrite sanitize_eq. unfold any_isnan. rewrite ravel_map3.
  induction (ravel a) as [|v l IH]; [reflexivity|].
  simpl. rewrite IH. destruct v; reflexivity.
Qed.

End Reductions.

(** ** Min-max rescaling *)

Section Rescaling.

Variables lo hi : Q.
Hypothesis span_pos : (0 < hi - lo)%Q.

Lemma span_nonzero : Qeq_bool (hi - lo) 0 = false.
Proof.
  destruct (Qeq_bool (hi - lo) 0) eqn:H; [|reflexivity].
  apply Qeq_bool_iff in H. rewrite H in span_pos.
  exfalso. exact (Qlt_irrefl 0 span_pos).
Qed.







End Rescaling.




Example ramp_output : snd (normalize_prediction ramp) = Ok [[[0; 127; 255]]].
Proof. reflexivity. Qed.

(** ** The low-contrast branch *)

Section LowContrast.

Lemma sequence_map {A B : Type} (f : A -> option B) (g : A -> B)
      (l : list A) (l' : list B) :
  (forall x y, In x l -> f x = Some y -> y = g x) ->
  sequence (map f l) = Some l' -> l' = map g l.
Proof.
  revert l'. induction l as [|x l IH]; intros l' Hf Hseq; simpl in *.
  - inversion Hseq. reflexivity.
  - destruct (f x) as [y|] eqn:Hx; [|discriminate].
    destruct (sequence (map f l)) as [t|] eqn:Ht; [|discriminate].
    inversion Hseq; subst. f_equal.
    + apply Hf; auto.
    + apply IH; auto.
Qed.

Lemma broadcast_flat_value (px out : list npfloat) :
  broadcast_flat px = Some out -> out = map (fmul (Num 1)) flat_normal.
Proof.
  unfold broadcast_flat.
  destruct (length px) as [|[|[|[|n]]]]; intro H; inversion H; reflexivity.
Qed.

Lemma ones_like_times_flat_value (a flat : ndarray3) :
  ones_like_times_flat a = Some flat ->
  flat = map (map (fun _ => map (fmul (Num 1)) flat_normal)) a.
Proof.
  unfold ones_like_times_flat. apply sequence_map.
  intros row out _. apply sequence_map.
  intros px v _. apply broadcast_flat_value.
Qed.

Lemma ones_like_times_flat_shape (W : nat) (a : ndarray3) :
  has_shape W 3 a ->
  ones_like_times_flat a
  = Some (map (map (fun _ => map (fmul (Num 1)) flat_normal)) a).
Proof.
  unfold ones_like_times_flat, has_shape. intro Hs.
  induction Hs as [|row a [_ Hrow] _ IH]; [reflexivity|].
  simpl. rewrite IH.
  replace (sequence (map broadcast_flat row))
    with (Some (map (fun _ : list npfloat =>
                       map (fmul (Num 1)) flat_normal) row)); [reflexivity|].
  clear IH. induction Hrow as [|px row Hpx _ IHr]; [reflexivity|].
  simpl. rewrite <- IHr. unfold broadcast_flat at 1. rewrite Hpx. reflexivity.
Qed.

(** Whatever the prediction holds, the low-contrast branch fills every
    pixel of a three-channel array with the triple (127, 127, 255). *)
Lemma low_contrast_uniform
  (W : nat) (pred : ndarray3) (p_min p_max : npfloat) :
  amin (sanitize (fix_axes pred)) = Some p_min ->
  amax (sanitize (fix_axes pred)) = Some p_max ->
  fgt (fsub p_max p_min) (Num (1 # 10)) = false ->
  has_shape W 3 (sanitize (fix_axes pred)) ->
  snd (normalize_prediction pred)
  = Ok (map (map (fun _ => [127; 127; 255])) (sanitize (fix_axes pred))).
Proof.
  intros Hmin Hmax Hspan Hs.
  unfold normalize_prediction, normalized_floats.
  rewrite Hmin, Hmax. unfold rescale. rewrite Hspan.
  rewrite (ones_like_times_flat_shape W _ Hs). cbn [snd map_result].
  f_equal. unfold map3. rewrite map_map. apply map_ext. intro row.
  rewrite map_map. apply map_ext. intro px. reflexivity.
Qed.

End LowContrast.

(** C2.  On the one-pixel prediction that is 0.5 in every channel the span
    is 0, the low-contrast branch is taken, and the pixel returned is
    (127, 127, 255): 0.5 * 255 = 127.5 is truncated by the cast to uint8.
    The triple (128, 128, 255) is not produced. *)
Theorem flat_half_gives_127 :
  amin (sanitize (fix_axes flat_half)) = Some (Num (1 # 2)) /\
  amax (sanitize (fix_axes flat_half)) = Some (Num (1 # 2)) /\
  fgt (fsub (Num (1 # 2)) (Num (1 # 2))) (Num (1 # 10)) = false /\
  snd (normalize_prediction flat_half) = Ok [[[127; 127; 255]]] /\
  snd (normalize_prediction flat_half) <> Ok [[[128; 128; 255]]].
Proof.
  repeat split; try reflexivity. discriminate.
Qed.

(** ** NaN sanitisation *)

Section Sanitisation.

Lemma any_isnan_map3 (g : npfloat -> npfloat) (a : ndarray3) :
  (forall v, In v (ravel a) -> isnan (g v) = false) ->
  any_isnan (map3 g a) = false.
Proof.
  unfold any_isnan. rewrite ravel_map3.
  induction (ravel a) as [|v l IH]; intro H; [reflexivity|].
  simpl. rewrite (H v (or_introl eq_refl)). apply IH.
  intros w Hw. apply H. right. exact Hw.
Qed.

Lemma no_nan_Num (a : ndarray3) (v : npfloat) :
  any_isnan a = false -> In v (ravel a) -> exists q, v = Num q.
Proof.
  unfold any_isnan. intros Hn Hin.
  destruct v as [|q]; [|exists q; reflexivity].
  assert (existsb isnan (ravel a) = true); [|congruence].
  apply existsb_exists. exists NaN. split; [exact Hin | reflexivity].
Qed.

Lemma any_isnan_fill (px0 : list npfloat) (a : ndarray3) :
  existsb isnan px0 = false ->
  any_isnan (map (map (fun _ => px0)) a) = false.
Proof.
  intro H0. unfold any_isnan, ravel.
  induction a as [|row a IH]; [reflexivity|].
  simpl. rewrite concat_app, existsb_app, IH, orb_false_r.
  clear IH. induction row as [|px row IHr]; [reflexivity|].
  simpl. rewrite existsb_app, H0, IHr. reflexivity.
Qed.

Lemma rescale_no_nan (a : ndarray3) (p_min p_max : npfloat) :
  any_isnan a = false ->
  amin a = Some p_min -> amax a = Some p_max ->
  match snd (rescale a p_min p_max) with
  | Ok arr => any_isnan arr = false
  | Raise _ => True
  end.
Proof.
  intros Hnan Hmin Hmax.
  destruct (amin_spec _ _ Hnan Hmin) as (lo & -> & _ & _).
  destruct (amax_spec _ _ Hnan Hmax) as (hi & -> & _ & _).
  unfold rescale. cbn [fsub fgt].
  destruct (Qltb (1 # 10) (hi - lo)) eqn:Hspan; cbn [snd].
  - apply Qltb_lt in Hspan.
    assert (Hpos : (0 < hi - lo)%Q).
    { apply (Qlt_trans _ (1 # 10)); [reflexivity | exact Hspan]. }
    apply any_isnan_map3. intros v Hv.
    destruct (no_nan_Num a v Hnan Hv) as [q ->].
    cbn [fsub fdiv]. rewrite (span_nonzero lo hi Hpos). reflexivity.
  - destruct (ones_like_times_flat a) as [flat|] eqn:Hflat; [|exact I].
    rewrite (ones_like_times_flat_value _ _ Hflat).
    apply any_isnan_fill. reflexivity.
Qed.

Lemma rescale_log (a : ndarray3) (p_min p_max : npfloat) (l : log_line) :
  In l (fst (rescale a p_min p_max)) -> l = LogLowContrast.
Proof.
  unfold rescale. destruct (fgt (fsub p_max p_min) (Num (1 # 10))); cbn [fst].
  - intros [].
  - intros [H | []]. symmetry. exact H.
Qed.

Lemma log_stats_inv (b : bool) (low : list log_line) (s : log_line)
      (x y z : npfloat) :
  (forall l, In l low -> l = LogLowContrast) ->
  In (LogStats x y z) ((if b then [LogNaNWarning] else []) ++ s :: low) ->
  s = LogStats x y z.
Proof.
  intros Hlow Hin. apply in_app_or in Hin. destruct Hin as [Hin | [Hin | Hin]].
  - destruct b; [destruct Hin as [Hin | []]; discriminate | destruct Hin].
  - exact Hin.
  - apply Hlow in Hin. discriminate.
Qed.

End Sanitisation.

(** C3.  The array whose minimum, maximum and span are computed is the
    axis-corrected prediction with every NaN replaced by 0.0: it holds no
    NaN, the statistics printed are its minimum and maximum and they are
    numbers, the result is computed from it alone, and no value handed to
    the clipping and the cast is a NaN.  A NaN in the axis-corrected
    prediction is reported on stdout first. *)
Theorem nan_replaced_before_range (pred : ndarray3) :
  sanitize (fix_axes pred) = map3 nan_to_num0 (fix_axes pred) /\
  any_isnan (sanitize (fix_axes pred)) = false /\
  (forall p_min p_max p_mean,
     In (LogStats p_min p_max p_mean) (fst (normalize_prediction pred)) ->
     amin (sanitize (fix_axes pred)) = Some p_min /\
     amax (sanitize (fix_axes pred)) = Some p_max /\
     isnan p_min = false /\ isnan p_max = false) /\
  snd (normalize_prediction pred)
  = match amin (sanitize (fix_axes pred)), amax (sanitize (fix_axes pred)) with
    | Some p_min, Some p_max =>
        map_result (map3 quantize)
          (snd (rescale (sanitize (fix_axes pred)) p_min p_max))
    | _, _ =>
        Raise (Exception
          "zero-size array to reduction operation minimum which has no identity")
    end /\
  match snd (normalized_floats pred) with
  | Ok arr => any_isnan arr = false
  | Raise _ => True
  end /\
  (exists rest,
     fst (normalize_prediction pred)
     = (if any_isnan (fix_axes pred) then [LogNaNWarning] else []) ++ rest).
Proof.
  pose proof (sanitize_no_nan (fix_axes pred)) as Hnan.
  split; [apply sanitize_eq|]. split; [exact Hnan|].
  unfold normalize_prediction, normalized_floats.
  destruct (amin (sanitize (fix_axes pred))) as [p_min|] eqn:Hmin;
    [destruct (amax (sanitize (fix_axes pred))) as [p_max|] eqn:Hmax|].
  - pose proof (rescale_no_nan _ _ _ Hnan Hmin Hmax) as Hres.
    pose proof (rescale_log (sanitize (fix_axes pred)) p_min p_max) as Hlow.
    destruct (rescale (sanitize (fix_axes pred)) p_min p_max) as [low r].
    cbn [fst snd] in *.
    split; [|split; [reflexivity | split; [exact Hres | eexists; reflexivity]]].
    intros x y z Hin. apply (log_stats_inv _ _ _ _ _ _ Hlow) in Hin.
    inversion Hin; subst x y z.
    destruct (amin_spec _ _ Hnan Hmin) as (lo & -> & _).
    destruct (amax_spec _ _ Hnan Hmax) as (hi & -> & _).
    repeat split; reflexivity.
  - cbn [fst snd map_result].
    split; [|split; [reflexivity | split; [exact I | exists []; symmetry; apply app_nil_r]]].
    intros x y z Hin. exfalso.
    destruct (any_isnan (fix_axes pred)); [destruct Hin as [Hin | []]|destruct Hin].
    discriminate.
  - cbn [fst snd map_result].
    split; [|split; [reflexivity | split; [exact I | exists []; symmetry; apply app_nil_r]]].
    intros x y z Hin. exfalso.
    destruct (any_isnan (fix_axes pred)); [destruct Hin as [Hin | []]|destruct Hin].
    discriminate.
Qed.

Example with_nan_output :
  normalize_prediction with_nan
  = ([LogNaNWarning;
      LogStats (Num 0) (Num 1) (mean [[[Num 0; Num (1 # 2); Num 1]]])],
     Ok [[[0; 127; 255]]]).
Proof. reflexivity. Qed.

(** ** Axis correction *)

Section AxisCorrection.

Lemma map_seq_nth {A : Type} (d : A) (l : list A) :
  forall (s : nat) (f : nat -> A),
    (forall i, (i < length l)%nat -> f (s + i)%nat = nth i l d) ->
    map f (seq s (length l)) = l.
Proof.
  induction l as [|x l IH]; intros s f Hf; [reflexivity|].
  simpl. f_equal.
  - rewrite <- (Nat.add_0_r s). apply (Hf 0%nat). simpl. lia.
  - apply IH. intros i Hi.
    replace (S s + i)%nat with (s + S i)%nat by lia.
    apply (Hf (S i)). simpl. lia.
Qed.

Lemma nth_map_default {A B : Type} (f : A -> B) (l : list A)
      (d : B) (d' : A) (n : nat) :
  f d' = d -> nth n (map f l) d = f (nth n l d').
Proof. intros <-. apply map_nth. Qed.

Lemma item_channel_first (cl : ndarray3) (c j k : nat) :
  (c < 3)%nat ->
  item (channel_first cl) c j k = nth c (nth k (nth j cl []) []) NaN.
Proof.
  intro Hc. unfold item, channel_first.
  assert (Hplane : nth c (map (fun c0 => map (map (fun px => nth c0 px NaN)) cl)
                              (seq 0 3)) []
                   = map (map (fun px => nth c px NaN)) cl).
  { destruct c as [|[|[|c]]]; try reflexivity. lia. }
  rewrite Hplane.
  rewrite (nth_map_default (map (fun px => nth c px NaN)) cl [] [] j eq_refl).
  apply (nth_map_default (fun px => nth c px NaN) (nth j cl []) NaN [] k).
  destruct c; reflexivity.
Qed.

Lemma three_channels (px : list npfloat) :
  length px = 3%nat -> [nth 0 px NaN; nth 1 px NaN; nth 2 px NaN] = px.
Proof.
  destruct px as [|a [|b [|c [|e px]]]]; intro H; try discriminate.
  reflexivity.
Qed.

Lemma transpose_channel_first (W : nat) (cl : ndarray3) :
  has_shape W 3 cl -> transpose_120 (channel_first cl) = cl.
Proof.
  intro Hs. unfold transpose_120.
  assert (H1 : shape1 (channel_first cl) = length cl).
  { unfold shape1, channel_first. simpl. rewrite length_map. reflexivity. }
  rewrite H1. apply (map_seq_nth []). intros j Hj. simpl.
  pose proof (proj1 (Forall_nth _ cl) Hs j [] Hj) as [Hw Hrow].
  assert (H2 : shape2 (channel_first cl) = length (nth j cl [])).
  { unfold shape2, channel_first. simpl. rewrite Hw.
    destruct cl as [|r0 cl']; [simpl in Hj; lia|].
    simpl. rewrite length_map. inversion Hs as [|? ? [Hr0 _] _]. exact Hr0. }
  rewrite H2. apply (map_seq_nth []). intros k Hk. simpl.
  rewrite !item_channel_first by lia.
  apply three_channels.
  exact (proj1 (Forall_nth _ (nth j cl [])) Hrow k [] Hk).
Qed.

Lemma fix_axes_channel_first (W : nat) (cl : ndarray3) :
  has_shape W 3 cl -> fix_axes (channel_first cl) = cl.
Proof.
  intro Hs. unfold fix_axes. simpl. apply (transpose_channel_first W). exact Hs.
Qed.

End AxisCorrection.

(** C4, as the code has it.  A channel-last prediction of shape (H, W, 3)
    with H different from 3 and its channel-first arrangement of shape
    (3, H, W) are the same array after axis correction, so they give the
    same output and the same printed lines. *)
Theorem channel_first_same_output (W : nat) (cl : ndarray3) :
  has_shape W 3 cl ->
  length cl <> 3%nat ->
  fix_axes (channel_first cl) = fix_axes cl /\
  normalize_prediction (channel_first cl) = normalize_prediction cl.
Proof.
  intros Hs Hh.
  assert (Hfix : fix_axes (channel_first cl) = fix_axes cl).
  { rewrite (fix_axes_channel_first W cl Hs). unfold fix_axes, shape0.
    destruct (Nat.eqb_spec (length cl) 3); [contradiction | reflexivity]. }
  split; [exact Hfix|].
  unfold normalize_prediction, normalized_floats. rewrite Hfix. reflexivity.
Qed.

Lemma channel_first_same_output_witness :
  normalize_prediction (channel_first two_rows) = normalize_prediction two_rows.
Proof.
  apply (channel_first_same_output 1 two_rows).
  - repeat constructor.
  - simpl. lia.
Defined.

(** C4, as stated, fails when the channel-last image is three pixels high:
    its first axis has length 3 as well, so it is permuted too, and the
    two layouts of the same values give different images. *)
Lemma channel_last_height_three_differs :
  has_shape 1 3 three_rows /\
  shape0 (channel_first three_rows) = 3%nat /\
  shape0 three_rows = 3%nat /\
  snd (normalize_prediction (channel_first three_rows))
  = Ok [[[0; 127; 255]]; [[255; 255; 0]]; [[63; 0; 191]]] /\
  snd (normalize_prediction three_rows)
  = Ok [[[0; 255; 63]; [127; 255; 0]; [255; 0; 191]]] /\
  snd (normalize_prediction (channel_first three_rows))
  <> snd (normalize_prediction three_rows).
Proof.
  repeat split; try reflexivity.
  - repeat constructor.
  - discriminate.
Qed.

(** ** Calls made by the handler *)

Section CallDiscipline.

Context {Image Pipe Response Generator : Type}.
Variable E : Env Image Pipe Response Generator.
Variable P : event -> Prop.

Lemma emits_ret {A : Type} (a : A) : emits_only (Pipe := Pipe) P (ret a).
Proof. intro w. exists []. split; [reflexivity | constructor]. Qed.

Lemma emits_raise {A : Type} (e : exn) :
  emits_only (Pipe := Pipe) P (raise (A := A) e).
Proof. intro w. exists []. split; [reflexivity | constructor]. Qed.

Lemma emits_lift {A : Type} (r : result A) :
  emits_only (Pipe := Pipe) P (lift r).
Proof. intro w. exists []. split; [reflexivity | constructor]. Qed.

Lemma emits_get : emits_only (Pipe := Pipe) P get_PIPELINE.
Proof. intro w. exists []. split; [reflexivity | constructor]. Qed.

Lemma emits_set (p : Pipe) : emits_only P (set_PIPELINE p).
Proof. intro w. exists []. split; [reflexivity | constructor]. Qed.

Lemma emits_emit (ev : event) : P ev -> emits_only (Pipe := Pipe) P (emit ev).
Proof.
  intros Hev w. exists [ev]. split; [reflexivity | repeat constructor; exact Hev].
Qed.

Lemma emits_bind {A B : Type} (m : M Pipe A) (k : A -> M Pipe B) :
  emits_only P m -> (forall a, emits_only P (k a)) -> emits_only P (bind m k).
Proof.
  intros Hm Hk w. destruct (Hm w) as (new1 & H1 & F1). unfold bind.
  destruct (m w) as [[a|e] w1]; simpl in H1.
  - destruct (Hk a w1) as (new2 & H2 & F2). exists (new2 ++ new1).
    rewrite H2, H1, app_assoc. split; [reflexivity | apply Forall_app; auto].
  - exists new1. auto.
Qed.

Lemma emits_try {A : Type} (m : M Pipe A) (h : exn -> M Pipe A) :
  emits_only P m -> (forall e, emits_only P (h e)) ->
  emits_only P (try_except m h).
Proof.
  intros Hm Hh w. destruct (Hm w) as (new1 & H1 & F1). unfold try_except.
  destruct (m w) as [[a|e] w1]; simpl in H1.
  - exists new1. auto.
  - destruct (Hh e w1) as (new2 & H2 & F2). exists (new2 ++ new1).
    rewrite H2, H1, app_assoc. split; [reflexivity | apply Forall_app; auto].
Qed.

Lemma emits_print_all (ls : list log_line) :
  (forall l, P (EvPrint l)) -> emits_only (Pipe := Pipe) P (print_all ls).
Proof.
  intro Hp. induction ls as [|l ls IH]; simpl.
  - apply emits_ret.
  - apply emits_bind; [apply emits_emit, Hp | intros _; exact IH].
Qed.

Lemma keeps_ret {A : Type} (a : A) : keeps_PIPELINE (Pipe := Pipe) (ret a).
Proof. intro w. reflexivity. Qed.

Lemma keeps_raise {A : Type} (e : exn) :
  keeps_PIPELINE (Pipe := Pipe) (raise (A := A) e).
Proof. intro w. reflexivity. Qed.

Lemma keeps_lift {A : Type} (r : result A) :
  keeps_PIPELINE (Pipe := Pipe) (lift r).
Proof. intro w. reflexivity. Qed.

Lemma keeps_emit (ev : event) : keeps_PIPELINE (Pipe := Pipe) (emit ev).
Proof. intro w. reflexivity. Qed.

Lemma keeps_bind {A B : Type} (m : M Pipe A) (k : A -> M Pipe B) :
  keeps_PIPELINE m -> (forall a, keeps_PIPELINE (k a)) ->
  keeps_PIPELINE (bind m k).
Proof.
  intros Hm Hk w. specialize (Hm w). unfold bind.
  destruct (m w) as [[a|e] w1]; simpl in Hm.
  - rewrite Hk. exact Hm.
  - exact Hm.
Qed.

Lemma keeps_try {A : Type} (m : M Pipe A) (h : exn -> M Pipe A) :
  keeps_PIPELINE m -> (forall e, keeps_PIPELINE (h e)) ->
  keeps_PIPELINE (try_except m h).
Proof.
  intros Hm Hh w. specialize (Hm w). unfold try_except.
  destruct (m w) as [[a|e] w1]; simpl in Hm.
  - exact Hm.
  - rewrite Hh. exact Hm.
Qed.

Lemma keeps_print_all (ls : list log_line) :
  keeps_PIPELINE (Pipe := Pipe) (print_all ls).
Proof.
  induction ls as [|l ls IH]; simpl.
  - apply keeps_ret.
  - apply keeps_bind; [apply keeps_emit | intros _; exact IH].
Qed.

End CallDiscipline.

Ltac emits_step :=
  first
    [ apply emits_ret | apply emits_raise | apply emits_lift
    | apply emits_get | apply emits_set
    | apply emits_print_all; [intro; simpl; auto]
    | apply emits_emit; [simpl; auto]
    | apply emits_bind; [|intro]
    | apply emits_try; [|intro]
    | match goal with
      | |- emits_only _ (match ?x with _ => _ end) => destruct x
      end ].

Ltac keeps_step :=
  first
    [ apply keeps_ret | apply keeps_raise | apply keeps_lift
    | apply keeps_print_all | apply keeps_emit
    | apply keeps_bind; [|intro]
    | apply keeps_try; [|intro]
    | match goal with
      | |- keeps_PIPELINE (match ?x with _ => _ end) => destruct x
      end ].

Section HandlerCalls.

Context {Image Pipe Response Generator : Type}.
Variable E : Env Image Pipe Response Generator.

Lemma load_pipeline_emits (P : event -> Prop) :
  P EvLoadPipeline ->
  (forall m d, P (EvFromPretrained m d)) ->
  (forall d, P (EvTo d)) ->
  (forall l, P (EvPrint l)) ->
  emits_only P (_load_pipeline E).
Proof.
  intros H1 H2 H3 H4. unfold _load_pipeline, print. repeat emits_step.
Qed.

Lemma fetch_emits (P : event -> Prop) (url : string) :
  P (EvHttpGet url 15) -> emits_only P (_fetch_image_from_url E url).
Proof.
  intro H. unfold _fetch_image_from_url. repeat emits_step.
Qed.

Lemma fetch_keeps (url : string) :
  keeps_PIPELINE (_fetch_image_from_url E url).
Proof. unfold _fetch_image_from_url. repeat keeps_step. Qed.

Lemma run_inference_emits (P : event -> Prop) (req : MarigoldRequest)
      (pipe : Pipe) (img : Image) :
  (forall s, P (EvPipeCall (effective_steps req) s)) ->
  (forall l, P (EvPrint l)) ->
  emits_only P (run_inference E req pipe img).
Proof.
  intros H1 H2. unfold run_inference, print. repeat emits_step.
Qed.

Lemma select_normal_img_emits (P : event -> Prop) (res : PipeResult Image) :
  (forall l, P (EvPrint l)) -> emits_only P (select_normal_img E res).
Proof.
  intro H. unfold select_normal_img. repeat emits_step.
Qed.

Lemma encode_response_emits (P : event -> Prop) (im : option Image) :
  emits_only P (encode_response E im).
Proof. unfold encode_response. repeat emits_step. Qed.

(** Every pipeline call the handler makes carries the step count of
    line 133. *)
Lemma marigold_normals_pipe_calls (req : MarigoldRequest) :
  emits_only
    (fun ev =>
       match ev with
       | EvPipeCall n _ => n = effective_steps req
       | _ => True
       end)
    (marigold_normals E req).
Proof.
  unfold marigold_normals.
  apply emits_bind; [apply fetch_emits; exact I | intro img].
  apply emits_bind;
    [apply emits_try;
     [apply load_pipeline_emits; intros; exact I | intro; apply emits_raise]
    | intro pipe].
  apply emits_bind;
    [apply run_inference_emits; intros; [reflexivity | exact I] | intro res].
  apply emits_bind;
    [apply select_normal_img_emits; intros; exact I | intro im].
  apply encode_response_emits.
Qed.

End HandlerCalls.

(** ** Inference step count *)

Lemma effective_steps_max (req : MarigoldRequest) :
  effective_steps req
  = Z.max (match num_inference_steps req with Some n => n | None => 20 end) 20.
Proof.
  unfold effective_steps, Py.max, Py.or_int.
  destruct (num_inference_steps req) as [n|]; [|reflexivity].
  destruct (Z.eqb_spec n 0) as [-> | Hn]; reflexivity.
Qed.

(** C5.  The step count handed to the pipeline is the larger of 20 and the
    requested count, the declared default 30 standing in for a field that
    is left out and the fallback 20 of line 133 for a missing value: a
    request for 5 steps runs 20 and a request for 50 runs 50, no count
    below 20 is ever used, and every pipeline call the handler makes
    carries that count. *)
Theorem steps_floor_20 :
  (forall url steps seed_,
     effective_steps (parse_request url steps seed_)
     = Z.max (match steps with
              | Value n => n
              | Omitted => 30
              | Null => 20
              end) 20) /\
  (forall req, 20 <= effective_steps req) /\
  (forall url seed_, effective_steps (parse_request url (Value 5) seed_) = 20) /\
  (forall url seed_, effective_steps (parse_request url (Value 50) seed_) = 50) /\
  (forall (Image Pipe Response Generator : Type)
          (E : Env Image Pipe Response Generator)
          (req : MarigoldRequest) (w : world Pipe),
     exists new,
       calls (snd (marigold_normals E req w)) = new ++ calls w /\
       forall n s, In (EvPipeCall n s) new ->
         n = Z.max (match num_inference_steps req with
                    | Some k => k
                    | None => 20
                    end) 20).
Proof.
  repeat split.
  - intros url steps seed_. rewrite effective_steps_max.
    destruct steps; reflexivity.
  - intro req. rewrite effective_steps_max. lia.
  - intros Image Pipe Response Generator E req w.
    destruct (marigold_normals_pipe_calls E req w) as (new & Hnew & Hall).
    exists new. split; [exact Hnew|]. intros n s Hin.
    rewrite Forall_forall in Hall. specialize (Hall _ Hin). simpl in Hall.
    rewrite Hall. apply effective_steps_max.
Qed.

(** C10.  A body that gives [num_inference_steps] as [null] or as 0 runs
    20 steps; the declared default 30 is used only when the field is left
    out, and then 30 steps run.  The pipeline is called with 20 steps for
    a [null] field. *)
Theorem null_or_zero_steps_run_20 :
  forall url seed_,
    num_inference_steps (parse_request url Null seed_) = None /\
    effective_steps (parse_request url Null seed_) = 20 /\
    effective_steps (parse_request url (Value 0) seed_) = 20 /\
    num_inference_steps (parse_request url Omitted seed_) = Some 30 /\
    effective_steps (parse_request url Omitted seed_) = 30 /\
    (forall (Image Pipe Response Generator : Type)
            (E : Env Image Pipe Response Generator) (w : world Pipe),
       exists new,
         calls (snd (marigold_normals E (parse_request url Null seed_) w))
         = new ++ calls w /\
         forall n s, In (EvPipeCall n s) new -> n = 20).
Proof.
  intros url seed_. repeat split.
  intros Image Pipe Response Generator E w.
  destruct (marigold_normals_pipe_calls E (parse_request url Null seed_) w)
    as (new & Hnew & Hall).
  exists new. split; [exact Hnew|]. intros n s Hin.
  rewrite Forall_forall in Hall. exact (Hall _ Hin).
Qed.

(** ** Image acquisition *)

Section Acquisition.

Context {Image Pipe Response Generator : Type}.
Variable E : Env Image Pipe Response Generator.

Lemma fetch_outcome (url : string) (w : world Pipe) :
  _fetch_image_from_url E url w
  = if Py.startswith url "data:image"
    then (as_input_error (decode_data_uri E url), w)
    else (as_input_error (fetch_remote E url),
          {| _PIPELINE := _PIPELINE w;
             calls := EvHttpGet url 15 :: calls w |}).
Proof.
  unfold _fetch_image_from_url, decode_data_uri, fetch_remote,
    try_except, bind, lift, ret, raise, emit, bind_result, as_input_error.
  destruct (Py.startswith url "data:image").
  - destruct (Py.split1 "," url) as [|a [|encoded [|c l]]]; try reflexivity.
    destruct (b64decode E encoded) as [data|e]; [|reflexivity].
    destruct (Image_open_convert_RGB E data); reflexivity.
  - simpl. destruct (requests_get E url 15) as [resp|e]; [|reflexivity].
    destruct (raise_for_status E resp) as [[]|e]; [|reflexivity].
    destruct (Image_open_convert_RGB E (content E resp)); reflexivity.
Qed.

Lemma fetch_raises_400 (url : string) (w w1 : world Pipe) (e : exn) :
  _fetch_image_from_url E url w = (Raise e, w1) ->
  exists cause,
    e = HTTPException 400 ("Failed to load/parse image: " ++ str cause).
Proof.
  rewrite fetch_outcome. unfold as_input_error.
  destruct (Py.startswith url "data:image").
  - destruct (decode_data_uri E url) as [im|c]; intro H; inversion H.
    exists c. reflexivity.
  - destruct (fetch_remote E url) as [im|c]; intro H; inversion H.
    exists c. reflexivity.
Qed.

End Acquisition.

(** C8.  A reference that starts with [data:image] is decoded from the
    text after its first comma and no call leaves the process; any other
    reference is fetched once over the network with a timeout of 15, and
    the image is decoded from the response.  A failure on either path is
    the 400 error. *)
Theorem data_uri_decoded_locally
  {Image Pipe Response Generator : Type}
  (E : Env Image Pipe Response Generator) (url : string) (w : world Pipe) :
  fst (_fetch_image_from_url E url w)
  = as_input_error
      (if Py.startswith url "data:image"
       then decode_data_uri E url
       else fetch_remote E url) /\
  calls (snd (_fetch_image_from_url E url w))
  = (if Py.startswith url "data:image"
     then calls w
     else EvHttpGet url 15 :: calls w) /\
  _PIPELINE (snd (_fetch_image_from_url E url w)) = _PIPELINE w.
Proof.
  rewrite fetch_outcome.
  destruct (Py.startswith url "data:image"); repeat split.
Qed.

Example data_uri_fetch :
  _fetch_image_from_url (sample_env true {| prediction := None; images := None |})
    (image_url data_uri_request) fresh_world
  = (Ok [[[0; 0; 0]]], fresh_world).
Proof. reflexivity. Qed.

(** C6.  When the image cannot be obtained the handler stops with the
    error raised by [_fetch_image_from_url], an HTTP 400 whose detail
    names the cause; [_load_pipeline] has not been entered, the pipeline
    has not been called and [_PIPELINE] is as it was. *)
Theorem unfetchable_image_is_400
  {Image Pipe Response Generator : Type}
  (E : Env Image Pipe Response Generator)
  (req : MarigoldRequest) (w w1 : world Pipe) (e : exn) :
  _fetch_image_from_url E (image_url req) w = (Raise e, w1) ->
  (exists cause,
     e = HTTPException 400 ("Failed to load/parse image: " ++ str cause)) /\
  marigold_normals E req w = (Raise e, w1) /\
  _PIPELINE w1 = _PIPELINE w /\
  exists new,
    calls w1 = new ++ calls w /\
    Forall (fun ev => ev = EvHttpGet (image_url req) 15) new /\
    ~ In EvLoadPipeline new /\
    (forall n s, ~ In (EvPipeCall n s) new).
Proof.
  intro Hfetch. split; [exact (fetch_raises_400 E _ _ _ _ Hfetch)|].
  split; [unfold marigold_normals, bind; rewrite Hfetch; reflexivity|].
  split.
  - pose proof (fetch_keeps E (image_url req) w) as Hk.
    rewrite Hfetch in Hk. exact Hk.
  - destruct (fetch_emits E (fun ev => ev = EvHttpGet (image_url req) 15)
                (image_url req) eq_refl w) as (new & Hnew & Hall).
    rewrite Hfetch in Hnew. exists new. repeat split; auto.
    + intro Hin. rewrite Forall_forall in Hall.
      specialize (Hall _ Hin). discriminate.
    + intros n s Hin. rewrite Forall_forall in Hall.
      specialize (Hall _ Hin). discriminate.
Qed.

Lemma unfetchable_image_is_400_witness :
  marigold_normals (sample_env true {| prediction := None; images := None |})
    remote_request fresh_world
  = (Raise (HTTPException 400
              "Failed to load/parse image: Connection refused"),
     {| _PIPELINE := None;
        calls := [EvHttpGet "http://localhost:9/missing.png" 15] |}).
Proof.
  apply (unfetchable_image_is_400
           (sample_env true {| prediction := None; images := None |})
           remote_request fresh_world).
  reflexivity.
Defined.

(** ** The cached pipeline *)

Section Cache.

Context {Image Pipe Response Generator : Type}.
Variable E : Env Image Pipe Response Generator.

(** [_PIPELINE] is assigned by a load that returns, and then holds the
    pipeline returned. *)
Lemma load_pipeline_returns (w w' : world Pipe) (p : Pipe) :
  _load_pipeline E w = (Ok p, w') -> _PIPELINE w' = Some p.
Proof.
  unfold _load_pipeline, try_except, bind, lift, ret, raise, emit, print,
    get_PIPELINE, set_PIPELINE. simpl.
  destruct (_PIPELINE w) as [p0|] eqn:Hw.
  - intro H. inversion H; subst. reflexivity.
  - simpl.
    destruct (from_pretrained E _ _) as [p1|e1]; simpl;
      [|intro H; inversion H].
    destruct (to E p1 _) as [p2|e2]; simpl; intro H; inversion H.
    reflexivity.
Qed.

Lemma load_pipeline_raises (w w' : world Pipe) (e : exn) :
  _load_pipeline E w = (Raise e, w') ->
  _PIPELINE w = None /\ _PIPELINE w' = None.
Proof.
  unfold _load_pipeline, try_except, bind, lift, ret, raise, emit, print,
    get_PIPELINE, set_PIPELINE. simpl.
  destruct (_PIPELINE w) as [p0|] eqn:Hw.
  - intro H. inversion H.
  - simpl.
    destruct (from_pretrained E _ _) as [p1|e1]; simpl.
    + destruct (to E p1 _) as [p2|e2]; simpl; intro H; inversion H.
      split; reflexivity.
    + intro H; inversion H. split; reflexivity.
Qed.

End Cache.

(** C7.  A load that raises was started with [_PIPELINE] unset and leaves
    it unset, and the request it served ends with HTTP 500 whose detail
    carries the error. *)
Theorem failed_load_leaves_cache_unset
  {Image Pipe Response Generator : Type}
  (E : Env Image Pipe Response Generator) (w w' : world Pipe) (e : exn) :
  _load_pipeline E w = (Raise e, w') ->
  _PIPELINE w = None /\
  _PIPELINE w' = None /\
  forall (req : MarigoldRequest) (w0 : world Pipe) (img : Image),
    _fetch_image_from_url E (image_url req) w0 = (Ok img, w) ->
    marigold_normals E req w0
    = (Raise (HTTPException 500 ("Failed to load model: " ++ str e)), w').
Proof.
  intro Hload. destruct (load_pipeline_raises E _ _ _ Hload) as [H0 H1].
  repeat split; auto.
  intros req w0 img Hfetch.
  unfold marigold_normals, bind, try_except. rewrite Hfetch, Hload.
  reflexivity.
Qed.

Lemma failed_load_leaves_cache_unset_witness :
  marigold_normals (sample_env false {| prediction := None; images := None |})
    data_uri_request fresh_world
  = (Raise (HTTPException 500 "Failed to load model: model unavailable"),
     {| _PIPELINE := None;
        calls := [EvPrint (LogLoadError "model unavailable");
                  EvFromPretrained "prs-eth/marigold-normals-v1-1" float32;
                  EvLoadPipeline] |}).
Proof.
  refine (proj2 (proj2
    (failed_load_leaves_cache_unset
       (sample_env false {| prediction := None; images := None |})
       fresh_world _ (Exception "model unavailable") eq_refl))
    data_uri_request fresh_world [[[0; 0; 0]]] eq_refl).
Defined.

(** After a failed load the next request tries again, and a load that
    succeeds fills the cache. *)
Example load_retried_after_failure :
  _PIPELINE
    (snd (_load_pipeline (sample_env true {| prediction := None; images := None |})
            (snd (_load_pipeline
                    (sample_env false {| prediction := None; images := None |})
                    fresh_world))))
  = Some "pipe"%string.
Proof. reflexivity. Qed.

(** ** Choice of the image to return *)

Section Output.

Context {Image Pipe Response Generator : Type}.
Variable E : Env Image Pipe Response Generator.

Lemma print_all_run (ls : list log_line) (w : world Pipe) :
  print_all ls w
  = (Ok tt,
     {| _PIPELINE := _PIPELINE w;
        calls := rev (map EvPrint ls) ++ calls w |}).
Proof.
  revert w. induction ls as [|l ls IH]; intro w.
  - destruct w. reflexivity.
  - simpl. unfold bind, print, emit. rewrite IH. simpl.
    rewrite <- app_assoc. reflexivity.
Qed.

Lemma select_normal_img_prediction
      (res : PipeResult Image) (pred : ndarray3) (rest : list ndarray3)
      (w : world Pipe) :
  prediction res = Some (pred :: rest) ->
  select_normal_img E res w
  = (match snd (normalize_prediction pred) with
     | Raise e => Raise e
     | Ok arr =>
         match Image_fromarray E arr with
         | Raise e => Raise e
         | Ok im => Ok (Some im)
         end
     end,
     {| _PIPELINE := _PIPELINE w;
        calls := rev (map EvPrint (fst (normalize_prediction pred)))
                 ++ calls w |}).
Proof.
  intro Hp. unfold select_normal_img. rewrite Hp.
  unfold bind at 1. unfold ret at 1.
  destruct (normalize_prediction pred) as [log r]. cbn [fst snd].
  unfold bind at 1. rewrite print_all_run.
  unfold bind, lift, ret.
  destruct r as [arr|e]; [|reflexivity].
  destruct (Image_fromarray E arr); reflexivity.
Qed.

End Output.

(** C9.  Once the pipeline has returned a result object: with a
    prediction, the image is built from the normalised first prediction;
    without a prediction but with a non-empty image list, the first image
    is encoded as it is, nothing being printed or computed in between;
    with neither, the request ends with HTTP 500 and the detail
    "Model returned no images or prediction". *)
Theorem result_object_dispatch
  {Image Pipe Response Generator : Type}
  (E : Env Image Pipe Response Generator)
  (req : MarigoldRequest) (w w1 w2 w3 : world Pipe)
  (img : Image) (pipe : Pipe) (res : PipeResult Image) :
  _fetch_image_from_url E (image_url req) w = (Ok img, w1) ->
  _load_pipeline E w1 = (Ok pipe, w2) ->
  run_inference E req pipe img w2 = (Ok res, w3) ->
  marigold_normals E req w
  = match prediction res with
    | Some (pred :: _) =>
        let w4 :=
          {| _PIPELINE := _PIPELINE w3;
             calls := rev (map EvPrint (fst (normalize_prediction pred)))
                      ++ calls w3 |} in
        match snd (normalize_prediction pred) with
        | Raise e => (Raise e, w4)
        | Ok arr =>
            match Image_fromarray E arr with
            | Raise e => (Raise e, w4)
            | Ok im => encode_response E (Some im) w4
            end
        end
    | Some [] => (Raise (Exception "index 0 is out of bounds"), w3)
    | None =>
        match images res with
        | Some (im :: _) => encode_response E (Some im) w3
        | _ =>
            (Raise (HTTPException 500
                      "Model returned no images or prediction"), w3)
        end
    end.
Proof.
  intros Hfetch Hload Hrun.
  unfold marigold_normals.
  unfold bind at 1. rewrite Hfetch.
  unfold bind at 1. unfold try_except. rewrite Hload.
  unfold bind at 1. rewrite Hrun.
  unfold bind at 1.
  destruct (prediction res) as [[|pred rest]|] eqn:Hp.
  - unfold select_normal_img. rewrite Hp. reflexivity.
  - rewrite (select_normal_img_prediction E res pred rest w3 Hp).
    cbv zeta.
    destruct (snd (normalize_prediction pred)) as [arr|e]; [|reflexivity].
    destruct (Image_fromarray E arr); reflexivity.
  - unfold select_normal_img. rewrite Hp.
    destruct (images res) as [[|im ims]|]; reflexivity.
Qed.

Lemma result_object_dispatch_witness :
  marigold_normals (sample_env true {| prediction := None; images := None |})
    data_uri_request fresh_world
  = (Raise (HTTPException 500 "Model returned no images or prediction"),
     {| _PIPELINE := Some "pipe"%string;
        calls := [EvPipeCall 20 false;
                  EvPrint (LogRunning 20);
                  EvTo "cpu";
                  EvFromPretrained "prs-eth/marigold-normals-v1-1" float32;
                  EvLoadPipeline] |}).
Proof.
  exact (result_object_dispatch
           (sample_env true {| prediction := None; images := None |})
           data_uri_request fresh_world _ _ _ _ _ _
           eq_refl eq_refl eq_refl).
Defined.

Example finished_image_returned_as_is :
  fst (marigold_normals
         (sample_env true
            {| prediction := None; images := Some [ [[[1; 2; 3]]] ] |})
         data_uri_request fresh_world)
  = Ok {| normal_map_base64 := "data:image/png;base64," |}.
Proof. reflexivity. Qed.

Example prediction_normalised :
  marigold_normals
    (sample_env true {| prediction := Some [ramp]; images := None |})
    data_uri_request fresh_world
  = (Ok {| normal_map_base64 := "data:image/png;base64," |},
     {| _PIPELINE := Some "pipe"%string;
        calls := [EvPrint (LogStats (Num 0) (Num 1) (mean ramp));
                  EvPipeCall 20 false;
                  EvPrint (LogRunning 20);
                  EvTo "cpu";
                  EvFromPretrained "prs-eth/marigold-normals-v1-1" float32;
                  EvLoadPipeline] |}).
Proof. reflexivity. Qed.

(** * Further properties of the handler *)

Import Coverage.

(** ** The pipeline cache across requests *)

Section CacheReuse.

Context {Image Pipe Response Generator : Type}.
Variable E : Env Image Pipe Response Generator.

Lemma load_pipeline_outcome (w : world Pipe) :
  _load_pipeline E w
  = match _PIPELINE w with
    | Some p =>
        (Ok p, {| _PIPELINE := Some p; calls := EvLoadPipeline :: calls w |})
    | None =>
        let asked :=
          EvFromPretrained "prs-eth/marigold-normals-v1-1" (chosen_dtype E)
          :: EvLoadPipeline :: calls w in
        match from_pretrained E "prs-eth/marigold-normals-v1-1"
                (chosen_dtype E) with
        | Raise e =>
            (Raise e,
             {| _PIPELINE := None;
                calls := EvPrint (LogLoadError (str e)) :: asked |})
        | Ok p0 =>
            match to E p0 (chosen_device E) with
            | Raise e =>
                (Raise e,
                 {| _PIPELINE := None;
                    calls := EvPrint (LogLoadError (str e))
                             :: EvTo (chosen_device E) :: asked |})
            | Ok p =>
                (Ok p,
                 {| _PIPELINE := Some p;
                    calls := EvTo (chosen_device E) :: asked |})
            end
        end
    end.
Proof.
  unfold _load_pipeline, try_except, bind, lift, ret, raise, emit, print,
    get_PIPELINE, set_PIPELINE, chosen_dtype, chosen_device. simpl.
  destruct (_PIPELINE w) as [p|]; [reflexivity|].
  destruct (cuda_is_available E); simpl.
  - destruct (from_pretrained E _ float16) as [p0|e]; simpl; [|reflexivity].
    destruct (to E p0 "cuda"); reflexivity.
  - destruct (from_pretrained E _ float32) as [p0|e]; simpl; [|reflexivity].
    destruct (to E p0 "cpu"); reflexivity.
Qed.

Lemma run_inference_keeps (req : MarigoldRequest) (pipe : Pipe) (img : Image) :
  keeps_PIPELINE (run_inference E req pipe img).
Proof. unfold run_inference, print. repeat keeps_step. Qed.

Lemma select_normal_img_keeps (res : PipeResult Image) :
  keeps_PIPELINE (select_normal_img E res).
Proof. unfold select_normal_img. repeat keeps_step. Qed.

Lemma encode_response_keeps (im : option Image) :
  keeps_PIPELINE (encode_response E im).
Proof. unfold encode_response. repeat keeps_step. Qed.

(** What the handler does once it holds the image and the pipeline. *)
Lemma after_load_keeps (req : MarigoldRequest) (pipe : Pipe) (img : Image) :
  keeps_PIPELINE
    (bind (run_inference E req pipe img)
       (fun res => bind (select_normal_img E res) (encode_response E))).
Proof.
  apply keeps_bind; [apply run_inference_keeps | intro res].
  apply keeps_bind; [apply select_normal_img_keeps | intro im].
  apply encode_response_keeps.
Qed.

Lemma after_load_emits (P : event -> Prop) (req : MarigoldRequest)
      (pipe : Pipe) (img : Image) :
  (forall n s, P (EvPipeCall n s)) ->
  (forall l, P (EvPrint l)) ->
  emits_only P
    (bind (run_inference E req pipe img)
       (fun res => bind (select_normal_img E res) (encode_response E))).
Proof.
  intros Hc Hp.
  apply emits_bind; [apply run_inference_emits; auto | intro res].
  apply emits_bind; [apply select_normal_img_emits; auto | intro im].
  apply encode_response_emits.
Qed.

(** The handler, split after image acquisition and pipeline loading. *)
Lemma marigold_normals_phases (req : MarigoldRequest) (w : world Pipe) :
  marigold_normals E req w
  = match _fetch_image_from_url E (image_url req) w with
    | (Raise e, w1) => (Raise e, w1)
    | (Ok img, w1) =>
        match _load_pipeline E w1 with
        | (Raise e, w2) =>
            (Raise (HTTPException 500 ("Failed to load model: " ++ str e)), w2)
        | (Ok pipe, w2) =>
            bind (run_inference E req pipe img)
              (fun res => bind (select_normal_img E res) (encode_response E))
              w2
        end
    end.
Proof.
  unfold marigold_normals. unfold bind at 1.
  destruct (_fetch_image_from_url E (image_url req) w) as [[img|e] w1];
    [|reflexivity].
  unfold bind at 1. unfold try_except.
  destruct (_load_pipeline E w1) as [[pipe|e] w2]; reflexivity.
Qed.

End CacheReuse.

(** X1.  A request served while [_PIPELINE] holds a pipeline leaves that
    pipeline in place and makes no call to the model hub: neither
    [from_pretrained] nor [to] is reached. *)
Theorem cached_pipeline_is_reused
  {Image Pipe Response Generator : Type}
  (E : Env Image Pipe Response Generator)
  (req : MarigoldRequest) (w : world Pipe) (p : Pipe) :
  _PIPELINE w = Some p ->
  _PIPELINE (snd (marigold_normals E req w)) = Some p /\
  exists new,
    calls (snd (marigold_normals E req w)) = new ++ calls w /\
    Forall (fun ev => is_hub_call ev = false) new.
Proof.
  intro Hw. rewrite marigold_normals_phases.
  pose proof (fetch_keeps E (image_url req) w) as Hk.
  destruct (fetch_emits E (fun ev => is_hub_call ev = false)
              (image_url req) eq_refl w) as (n1 & Hn1 & Hf1).
  destruct (_fetch_image_from_url E (image_url req) w) as [[img|e] w1];
    simpl in Hk, Hn1.
  - rewrite load_pipeline_outcome. rewrite Hk, Hw.
    set (w2 := {| _PIPELINE := Some p; calls := EvLoadPipeline :: calls w1 |}).
    split.
    + rewrite (after_load_keeps E req p img w2). reflexivity.
    + destruct (after_load_emits E (fun ev => is_hub_call ev = false)
                  req p img (fun _ _ => eq_refl) (fun _ => eq_refl) w2)
        as (n2 & Hn2 & Hf2).
      exists (n2 ++ EvLoadPipeline :: n1). split.
      * rewrite Hn2. unfold w2. simpl. rewrite Hn1, <- app_assoc. reflexivity.
      * apply Forall_app. split; [exact Hf2|]. constructor; [reflexivity|exact Hf1].
  - simpl. split; [congruence|]. exists n1. split; assumption.
Qed.

Lemma cached_pipeline_is_reused_witness :
  _PIPELINE
    (snd (marigold_normals
            (sample_env false {| prediction := Some [ramp]; images := None |})
            data_uri_request warm_world))
  = Some "pipe"%string.
Proof.
  apply (cached_pipeline_is_reused
           (sample_env false {| prediction := Some [ramp]; images := None |})
           data_uri_request warm_world "pipe"%string).
  reflexivity.
Defined.

(** X2.  When a request finds [_PIPELINE] unset and leaves it set, the
    pipeline stored is the one obtained from from_pretrained for the model
    prs-eth/marigold-normals-v1-1, in half precision on a CUDA host and in
    single precision otherwise, and then moved to that device. *)
Theorem cache_holds_the_loaded_pipeline
  {Image Pipe Response Generator : Type}
  (E : Env Image Pipe Response Generator)
  (req : MarigoldRequest) (w : world Pipe) (p : Pipe) :
  _PIPELINE w = None ->
  _PIPELINE (snd (marigold_normals E req w)) = Some p ->
  exists p0,
    from_pretrained E "prs-eth/marigold-normals-v1-1"
      (if cuda_is_available E then float16 else float32) = Ok p0 /\
    to E p0 (if cuda_is_available E then "cuda" else "cpu")%string = Ok p.
Proof.
  intros Hw. rewrite marigold_normals_phases.
  pose proof (fetch_keeps E (image_url req) w) as Hk.
  destruct (_fetch_image_from_url E (image_url req) w) as [[img|e] w1];
    simpl in Hk.
  - rewrite load_pipeline_outcome. rewrite Hk, Hw. cbv zeta.
    fold (chosen_dtype E). fold (chosen_device E).
    destruct (from_pretrained E _ (chosen_dtype E)) as [p0|e0] eqn:Hhub;
      [|simpl; discriminate].
    destruct (to E p0 (chosen_device E)) as [p1|e1] eqn:Hto;
      [|simpl; discriminate].
    rewrite (after_load_keeps E req p1 img). simpl.
    intro H. inversion H; subst. exists p0. split; [reflexivity | exact Hto].
  - simpl. congruence.
Qed.

Lemma cache_holds_the_loaded_pipeline_witness :
  exists p0,
    from_pretrained
      (sample_env true {| prediction := Some [ramp]; images := None |})
      "prs-eth/marigold-normals-v1-1" float32 = Ok p0 /\
    to (sample_env true {| prediction := Some [ramp]; images := None |})
      p0 "cpu" = Ok "pipe"%string.
Proof.
  apply (cache_holds_the_loaded_pipeline
           (sample_env true {| prediction := Some [ramp]; images := None |})
           data_uri_request fresh_world "pipe"%string); reflexivity.
Defined.

(** ** The call of the pipeline *)

Section Inference.

Context {Image Pipe Response Generator : Type}.
Variable E : Env Image Pipe Response Generator.

Lemma run_inference_outcome (req : MarigoldRequest) (pipe : Pipe)
      (img : Image) (w : world Pipe) :
  run_inference E req pipe img w
  = let steps := effective_steps req in
    let called seeded :=
      {| _PIPELINE := _PIPELINE w;
         calls := EvPipeCall steps seeded :: EvPrint (LogRunning steps)
                  :: calls w |} in
    let wrap (r : result (PipeResult Image)) :=
      match r with
      | Ok res => Ok res
      | Raise c =>
          Raise (HTTPException 500 ("Model inference failed: " ++ str c))
      end in
    match seed req with
    | Some s =>
        match Generator_manual_seed E (device E pipe) s with
        | Raise c =>
            (Raise (HTTPException 500 ("Model inference failed: " ++ str c)),
             w)
        | Ok g => (wrap (call E pipe img steps (Some g)), called true)
        end
    | None => (wrap (call E pipe img steps None), called false)
    end.
Proof.
  unfold run_inference, try_except, bind, lift, ret, raise, print, emit.
  destruct (seed req) as [s|]; simpl.
  - destruct (Generator_manual_seed E (device E pipe) s) as [g|c]; simpl;
      [|reflexivity].
    destruct (call E pipe img (effective_steps req) (Some g)); reflexivity.
  - destruct (call E pipe img (effective_steps req) None); reflexivity.
Qed.

Lemma run_inference_raises (req : MarigoldRequest) (pipe : Pipe)
      (img : Image) (w w' : world Pipe) (e : exn) :
  run_inference E req pipe img w = (Raise e, w') ->
  exists cause,
    e = HTTPException 500 ("Model inference failed: " ++ str cause).
Proof.
  rewrite run_inference_outcome. cbv zeta.
  destruct (seed req) as [s|].
  - destruct (Generator_manual_seed E (device E pipe) s) as [g|c].
    + destruct (call E pipe img (effective_steps req) (Some g)) as [res|c];
        intro H; inversion H. exists c. reflexivity.
    + intro H; inversion H. exists c. reflexivity.
  - destruct (call E pipe img (effective_steps req) None) as [res|c];
      intro H; inversion H. exists c. reflexivity.
Qed.

Lemma no_pipe_calls (l : list event) :
  Forall (fun ev => is_pipe_call ev = false) l ->
  pipe_calls l = 0%nat /\ forall n s, ~ In (EvPipeCall n s) l.
Proof.
  intro H. split.
  - unfold pipe_calls. induction H as [|ev l Hev _ IH]; [reflexivity|].
    simpl. rewrite Hev. exact IH.
  - intros n s Hin. rewrite Forall_forall in H.
    specialize (H _ Hin). discriminate.
Qed.

Lemma pipe_calls_app (l1 l2 : list event) :
  pipe_calls (l1 ++ l2) = (pipe_calls l1 + pipe_calls l2)%nat.
Proof. unfold pipe_calls. rewrite filter_app, length_app. reflexivity. Qed.

Lemma run_inference_trace (req : MarigoldRequest) (pipe : Pipe)
      (img : Image) (w : world Pipe) :
  exists new,
    calls (snd (run_inference E req pipe img w)) = new ++ calls w /\
    (pipe_calls new <= 1)%nat /\
    forall n s, In (EvPipeCall n s) new ->
      s = match seed req with Some _ => true | None => false end.
Proof.
  rewrite run_inference_outcome. cbv zeta.
  destruct (seed req) as [s0|].
  - destruct (Generator_manual_seed E (device E pipe) s0) as [g|c].
    + exists [EvPipeCall (effective_steps req) true;
              EvPrint (LogRunning (effective_steps req))].
      simpl. repeat split; auto.
      intros n s [H | [H | []]]; inversion H. reflexivity.
    + exists []. simpl. split; [reflexivity|].
      split; [unfold pipe_calls; simpl; lia|]. intros n s [].
  - exists [EvPipeCall (effective_steps req) false;
            EvPrint (LogRunning (effective_steps req))].
    simpl. repeat split; auto.
    intros n s [H | [H | []]]; inversion H. reflexivity.
Qed.

End Inference.

(** X3.  Whatever goes wrong between seeding the generator and the return
    of the pipeline call, the request ends with HTTP 500 and a detail that
    starts with "Model inference failed: " followed by the cause. *)
Theorem inference_failure_is_500
  {Image Pipe Response Generator : Type}
  (E : Env Image Pipe Response Generator)
  (req : MarigoldRequest) (pipe : Pipe) (img : Image)
  (w w' : world Pipe) (e : exn) :
  run_inference E req pipe img w = (Raise e, w') ->
  (exists cause,
     e = HTTPException 500 ("Model inference failed: " ++ str cause)) /\
  forall w0 w1,
    _fetch_image_from_url E (image_url req) w0 = (Ok img, w1) ->
    _load_pipeline E w1 = (Ok pipe, w) ->
    marigold_normals E req w0 = (Raise e, w').
Proof.
  intro Hrun. split; [exact (run_inference_raises E _ _ _ _ _ _ Hrun)|].
  intros w0 w1 Hfetch Hload.
  rewrite marigold_normals_phases, Hfetch, Hload.
  unfold bind at 1. rewrite Hrun. reflexivity.
Qed.

Lemma inference_failure_is_500_witness :
  fst (marigold_normals failing_call_env data_uri_request fresh_world)
  = Raise (HTTPException 500 "Model inference failed: CUDA out of memory").
Proof.
  refine (f_equal fst
    (proj2 (inference_failure_is_500 failing_call_env data_uri_request
              "pipe"%string [[[0; 0; 0]]] _ _ _ eq_refl)
       fresh_world fresh_world eq_refl eq_refl)).
Defined.

(** X4.  When a seed is given and the generator cannot be seeded with it,
    the request ends with HTTP 500 before anything is printed and without
    the pipeline being called. *)
Theorem failed_seed_skips_the_pipeline
  {Image Pipe Response Generator : Type}
  (E : Env Image Pipe Response Generator)
  (req : MarigoldRequest) (pipe : Pipe) (img : Image)
  (w : world Pipe) (s : Z) (cause : exn) :
  seed req = Some s ->
  Generator_manual_seed E (device E pipe) s = Raise cause ->
  run_inference E req pipe img w
  = (Raise (HTTPException 500 ("Model inference failed: " ++ str cause)), w).
Proof.
  intros Hs Hg. rewrite run_inference_outcome. cbv zeta.
  rewrite Hs, Hg. reflexivity.
Qed.

Lemma failed_seed_skips_the_pipeline_witness :
  run_inference failing_call_env (seeded_request (-1)) "pipe"%string
    [[[0; 0; 0]]] warm_world
  = (Raise (HTTPException 500 "Model inference failed: bad seed"), warm_world).
Proof.
  apply (failed_seed_skips_the_pipeline failing_call_env
           (seeded_request (-1)) "pipe"%string [[[0; 0; 0]]] warm_world (-1)
           (Exception "bad seed")); reflexivity.
Defined.

(** X5.  A request calls the pipeline at most once, and the call carries a
    generator exactly when the request carries a seed. *)
Theorem one_pipeline_call_per_request
  {Image Pipe Response Generator : Type}
  (E : Env Image Pipe Response Generator)
  (req : MarigoldRequest) (w : world Pipe) :
  exists new,
    calls (snd (marigold_normals E req w)) = new ++ calls w /\
    (pipe_calls new <= 1)%nat /\
    forall n s, In (EvPipeCall n s) new ->
      s = match seed req with Some _ => true | None => false end.
Proof.
  rewrite marigold_normals_phases.
  destruct (fetch_emits E (fun ev => is_pipe_call ev = false)
              (image_url req) eq_refl w) as (n1 & Hn1 & Hf1).
  destruct (no_pipe_calls _ Hf1) as [Hc1 Hi1].
  destruct (_fetch_image_from_url E (image_url req) w) as [[img|e] w1];
    simpl in Hn1.
  2:{ exists n1. simpl. repeat split; auto; [lia|].
      intros n s Hin. destruct (Hi1 _ _ Hin). }
  destruct (load_pipeline_emits E (fun ev => is_pipe_call ev = false)
              eq_refl (fun _ _ => eq_refl) (fun _ => eq_refl)
              (fun _ => eq_refl) w1) as (n2 & Hn2 & Hf2).
  destruct (no_pipe_calls _ Hf2) as [Hc2 Hi2].
  destruct (_load_pipeline E w1) as [[pipe|e] w2]; simpl in Hn2.
  2:{ exists (n2 ++ n1). simpl. rewrite Hn2, Hn1, app_assoc.
      rewrite pipe_calls_app. repeat split; auto; [lia|].
      intros n s Hin. apply in_app_or in Hin.
      destruct Hin as [Hin | Hin]; [destruct (Hi2 _ _ Hin) | destruct (Hi1 _ _ Hin)]. }
  unfold bind at 1.
  destruct (run_inference_trace E req pipe img w2) as (n3 & Hn3 & Hc3 & Hi3).
  destruct (run_inference E req pipe img w2) as [[res|e] w3]; simpl in Hn3.
  2:{ exists (n3 ++ n2 ++ n1). simpl. rewrite Hn3, Hn2, Hn1, <- !app_assoc.
      rewrite !pipe_calls_app. repeat split; auto; [lia|].
      intros n s Hin. apply in_app_or in Hin.
      destruct Hin as [Hin | Hin]; [exact (Hi3 _ _ Hin)|].
      apply in_app_or in Hin.
      destruct Hin as [Hin | Hin]; [destruct (Hi2 _ _ Hin) | destruct (Hi1 _ _ Hin)]. }
  assert (Hpost : emits_only (fun ev => is_pipe_call ev = false)
                    (bind (select_normal_img E res) (encode_response E))).
  { apply emits_bind;
      [apply select_normal_img_emits; reflexivity | intro im].
    apply encode_response_emits. }
  destruct (Hpost w3) as (n4 & Hn4 & Hf4).
  destruct (no_pipe_calls _ Hf4) as [Hc4 Hi4].
  exists (n4 ++ n3 ++ n2 ++ n1).
  rewrite Hn4, Hn3, Hn2, Hn1, <- !app_assoc, !pipe_calls_app.
  repeat split; auto; [lia|].
  intros n s Hin. apply in_app_or in Hin.
  destruct Hin as [Hin | Hin]; [destruct (Hi4 _ _ Hin)|].
  apply in_app_or in Hin.
  destruct Hin as [Hin | Hin]; [exact (Hi3 _ _ Hin)|].
  apply in_app_or in Hin.
  destruct Hin as [Hin | Hin]; [destruct (Hi2 _ _ Hin) | destruct (Hi1 _ _ Hin)].
Qed.

(** ** The response *)

Section Response.

Context {Image Pipe Response Generator : Type}.
Variable E : Env Image Pipe Response Generator.

Lemma bind_Ok_inv {A B : Type} (m : M Pipe A) (k : A -> M Pipe B)
      (w w' : world Pipe) (b : B) :
  bind m k w = (Ok b, w') ->
  exists a w1, m w = (Ok a, w1) /\ k a w1 = (Ok b, w').
Proof.
  unfold bind. destruct (m w) as [[a|e] w1]; intro H; [|discriminate].
  exists a, w1. split; [reflexivity | exact H].
Qed.

Lemma startswith_app (p s : string) : Py.startswith (p ++ s) p = true.
Proof.
  induction p as [|c p IH]; [destruct s; reflexivity|].
  simpl. rewrite Ascii.eqb_refl. exact IH.
Qed.

Lemma encode_response_Ok (im : option Image) (w w' : world Pipe)
      (resp : MarigoldResponse) :
  encode_response E im w = (Ok resp, w') ->
  exists i png,
    im = Some i /\ save_PNG E i = Ok png /\
    normal_map_base64 resp
    = ("data:image/png;base64," ++ b64encode_ascii E png)%string.
Proof.
  unfold encode_response. destruct im as [i|]; [|discriminate].
  unfold bind, lift, ret.
  destruct (save_PNG E i) as [png|e] eqn:Hpng; intro H; inversion H.
  exists i, png. split; [reflexivity|]. split; [exact Hpng | reflexivity].
Qed.

End Response.

(** X6.  A request that succeeds returns a string that starts with
    "data:image/png;base64," followed by the base64 text of the PNG bytes
    of the image, and leaves a pipeline in [_PIPELINE]. *)
Theorem success_is_png_data_uri
  {Image Pipe Response Generator : Type}
  (E : Env Image Pipe Response Generator)
  (req : MarigoldRequest) (w w' : world Pipe) (resp : MarigoldResponse) :
  marigold_normals E req w = (Ok resp, w') ->
  (exists im png,
     save_PNG E im = Ok png /\
     normal_map_base64 resp
     = ("data:image/png;base64," ++ b64encode_ascii E png)%string) /\
  Py.startswith (normal_map_base64 resp) "data:image/png;base64," = true /\
  exists p, _PIPELINE w' = Some p.
Proof.
  rewrite marigold_normals_phases.
  destruct (_fetch_image_from_url E (image_url req) w) as [[img|e] w1];
    [|discriminate].
  destruct (_load_pipeline E w1) as [[pipe|e] w2] eqn:Hload; [|discriminate].
  intro H.
  pose proof (after_load_keeps E req pipe img w2) as Hkeep.
  rewrite H in Hkeep. simpl in Hkeep.
  apply bind_Ok_inv in H. destruct H as (res & w3 & _ & H).
  apply bind_Ok_inv in H. destruct H as (im & w4 & _ & H).
  apply encode_response_Ok in H. destruct H as (i & png & _ & Hpng & Hresp).
  split; [exists i, png; split; assumption|].
  split; [rewrite Hresp; apply startswith_app|].
  exists pipe. rewrite Hkeep. exact (load_pipeline_returns E _ _ _ Hload).
Qed.

Lemma success_is_png_data_uri_witness :
  exists p,
    _PIPELINE
      (snd (marigold_normals
              (sample_env true {| prediction := Some [ramp]; images := None |})
              data_uri_request fresh_world))
    = Some p.
Proof.
  exact (proj2 (proj2
    (success_is_png_data_uri
       (sample_env true {| prediction := Some [ramp]; images := None |})
       data_uri_request fresh_world
       (snd (marigold_normals
               (sample_env true {| prediction := Some [ramp]; images := None |})
               data_uri_request fresh_world))
       {| normal_map_base64 := "data:image/png;base64," |} eq_refl))).
Defined.

(** ** Data URIs *)

Section DataUri.

Lemma split1_first (h p : string) :
  str_contains "," h = false ->
  Py.split1 "," (h ++ String "," p) = [h; p].
Proof.
  induction h as [|c h IH]; intro Hh; simpl in *.
  - reflexivity.
  - destruct (Ascii.eqb c ","); [discriminate|].
    rewrite (IH Hh). reflexivity.
Qed.

Lemma split1_absent (s : string) :
  str_contains "," s = false -> Py.split1 "," s = [s].
Proof.
  induction s as [|c s IH]; intro Hs; simpl in *.
  - reflexivity.
  - destruct (Ascii.eqb c ","); [discriminate|].
    rewrite (IH Hs). reflexivity.
Qed.

End DataUri.

(** X7.  In a data URI the payload is everything after the first comma:
    later commas stay in the text handed to the base64 decoder, the image
    is opened from the decoded bytes, and no call leaves the process. *)
Theorem data_uri_payload_follows_first_comma
  {Image Pipe Response Generator : Type}
  (E : Env Image Pipe Response Generator)
  (header payload : string) (w : world Pipe) :
  Py.startswith header "data:image" = true ->
  str_contains "," header = false ->
  _fetch_image_from_url E (header ++ String "," payload) w
  = (as_input_error
       (bind_result (b64decode E payload) (Image_open_convert_RGB E)),
     w).
Proof.
  intros Hprefix Hcomma. rewrite fetch_outcome.
  assert (Hs : Py.startswith (header ++ String "," payload) "data:image" = true).
  { clear Hcomma. revert Hprefix.
    generalize "data:image"%string as pre. revert header.
    induction header as [|c h IH]; intros pre Hp.
    - destruct pre; [reflexivity | discriminate].
    - destruct pre as [|d pre]; [reflexivity|]. simpl in *.
      destruct (Ascii.eqb d c); [apply IH; exact Hp | discriminate]. }
  rewrite Hs. unfold decode_data_uri. rewrite (split1_first _ _ Hcomma).
  reflexivity.
Qed.

Lemma data_uri_payload_follows_first_comma_witness :
  _fetch_image_from_url
    (sample_env true {| prediction := None; images := None |})
    ("data:image/png;base64" ++ String "," "iVBOR,w0KGgo=") fresh_world
  = (Ok [[[0; 0; 0]]], fresh_world).
Proof.
  apply (data_uri_payload_follows_first_comma
           (sample_env true {| prediction := None; images := None |})
           "data:image/png;base64" "iVBOR,w0KGgo=" fresh_world); reflexivity.
Defined.

(** X8.  A reference that starts with [data:image] and holds no comma is
    refused with HTTP 400 and the unpacking error as detail; nothing is
    decoded and no call leaves the process. *)
Theorem data_uri_without_comma_is_400
  {Image Pipe Response Generator : Type}
  (E : Env Image Pipe Response Generator) (url : string) (w : world Pipe) :
  Py.startswith url "data:image" = true ->
  str_contains "," url = false ->
  _fetch_image_from_url E url w
  = (Raise (HTTPException 400
       "Failed to load/parse image: not enough values to unpack (expected 2, got 1)"),
     w).
Proof.
  intros Hprefix Hcomma. rewrite fetch_outcome, Hprefix.
  unfold decode_data_uri. rewrite (split1_absent _ Hcomma). reflexivity.
Qed.

Lemma data_uri_without_comma_is_400_witness :
  _fetch_image_from_url
    (sample_env true {| prediction := None; images := None |})
    "data:image/png;base64" fresh_world
  = (Raise (HTTPException 400
       "Failed to load/parse image: not enough values to unpack (expected 2, got 1)"),
     fresh_world).
Proof.
  apply (data_uri_without_comma_is_400
           (sample_env true {| prediction := None; images := None |})
           "data:image/png;base64" fresh_world); reflexivity.
Defined.

(** ** Degenerate predictions *)

Section Degenerate.

Lemma sequence_None {A B : Type} (f : A -> option B) (l : list A) (x : A) :
  In x l -> f x = None -> sequence (map f l) = None.
Proof.
  induction l as [|y l IH]; intros Hin Hx; [destruct Hin|].
  simpl. destruct Hin as [-> | Hin].
  - rewrite Hx. reflexivity.
  - destruct (f y); [|reflexivity]. rewrite (IH Hin Hx). reflexivity.
Qed.

Lemma broadcast_flat_None (px : list npfloat) :
  length px <> 1%nat -> length px <> 3%nat -> broadcast_flat px = None.
Proof.
  unfold broadcast_flat.
  destruct (length px) as [|[|[|[|n]]]]; intros H1 H3;
    try reflexivity; contradiction.
Qed.

Lemma has_shape_map3 {A B : Type} (f : A -> B) (W C : nat)
      (a : list (list (list A))) :
  has_shape W C a -> has_shape W C (map3 f a).
Proof.
  unfold has_shape, map3. intro H.
  induction H as [|row a [Hw Hrow] _ IH]; simpl; constructor; [|exact IH].
  split; [rewrite length_map; exact Hw|].
  clear Hw. induction Hrow as [|px row Hpx _ IHr]; simpl; constructor;
    [rewrite length_map; exact Hpx | exact IHr].
Qed.

Lemma reduce_all_zero (f : npfloat -> npfloat -> npfloat) (l : list npfloat) :
  f (Num 0) (Num 0) = Num 0 ->
  l <> [] -> Forall (fun v => v = Num 0) l -> reduce f l = Some (Num 0).
Proof.
  intros Hf Hne Hall. destruct Hall as [|x t Hx Ht]; [contradiction|].
  subst x. clear Hne. simpl. f_equal.
  induction Ht as [|y t Hy _ IH]; [reflexivity|].
  subst y. simpl. rewrite Hf. exact IH.
Qed.

End Degenerate.

Lemma rescale_low_contrast (W : nat) (a : ndarray3) (p_min p_max : npfloat) :
  fgt (fsub p_max p_min) (Num (1 # 10)) = false ->
  has_shape W 3 a ->
  rescale a p_min p_max
  = ([LogLowContrast],
     Ok (map (map (fun _ => map (fmul (Num 1)) flat_normal)) a)).
Proof.
  intros Hspan Hs. unfold rescale. rewrite Hspan.
  rewrite (ones_like_times_flat_shape W a Hs). reflexivity.
Qed.

Lemma quantize_flat (a : ndarray3) :
  map3 quantize (map (map (fun _ => map (fmul (Num 1)) flat_normal)) a)
  = map (map (fun _ => [127; 127; 255])) a.
Proof.
  unfold map3. rewrite map_map. apply map_ext. intro row.
  rewrite map_map. apply map_ext. intro px. reflexivity.
Qed.

(** X9.  Whatever a three-channel prediction holds, when its span is at
    most 0.1 every pixel of the output is (127, 127, 255), and the
    statistics and the low-contrast warning are the last two lines
    printed. *)
Theorem low_contrast_is_flat
  (W : nat) (pred : ndarray3) (p_min p_max : npfloat) :
  amin (sanitize (fix_axes pred)) = Some p_min ->
  amax (sanitize (fix_axes pred)) = Some p_max ->
  fgt (fsub p_max p_min) (Num (1 # 10)) = false ->
  has_shape W 3 (sanitize (fix_axes pred)) ->
  normalize_prediction pred
  = ((if any_isnan (fix_axes pred) then [LogNaNWarning] else [])
     ++ [LogStats p_min p_max (mean (sanitize (fix_axes pred)));
         LogLowContrast],
     Ok (map (map (fun _ => [127; 127; 255])) (sanitize (fix_axes pred)))).
Proof.
  intros Hmin Hmax Hspan Hs.
  unfold normalize_prediction, normalized_floats.
  rewrite Hmin, Hmax, (rescale_low_contrast W _ _ _ Hspan Hs).
  cbn [map_result]. rewrite quantize_flat. reflexivity.
Qed.

Lemma low_contrast_is_flat_witness :
  normalize_prediction flat_half
  = ([LogStats (Num (1 # 2)) (Num (1 # 2)) (mean flat_half); LogLowContrast],
     Ok [[[127; 127; 255]]]).
Proof.
  apply (low_contrast_is_flat 1 flat_half (Num (1 # 2)) (Num (1 # 2)));
    try reflexivity.
  repeat constructor.
Defined.

(** X10.  A three-channel prediction that consists of NaN only comes out
    as the flat image: both warnings are printed, the statistics read 0
    and 0, and every pixel is (127, 127, 255). *)
Theorem all_nan_prediction_is_flat (W : nat) (pred : ndarray3) :
  ravel (fix_axes pred) <> [] ->
  Forall (fun v => v = NaN) (ravel (fix_axes pred)) ->
  has_shape W 3 (fix_axes pred) ->
  normalize_prediction pred
  = ([LogNaNWarning;
      LogStats (Num 0) (Num 0) (mean (map3 nan_to_num0 (fix_axes pred)));
      LogLowContrast],
     Ok (map (map (fun _ => [127; 127; 255])) (fix_axes pred))).
Proof.
  intros Hne Hall Hs.
  assert (Hnan : any_isnan (fix_axes pred) = true).
  { unfold any_isnan. destruct Hall as [|v l Hv _]; [contradiction|].
    subst v. reflexivity. }
  assert (Hsan : sanitize (fix_axes pred) = map3 nan_to_num0 (fix_axes pred))
    by apply sanitize_eq.
  assert (Hzero : Forall (fun v => v = Num 0)
                    (ravel (map3 nan_to_num0 (fix_axes pred)))).
  { rewrite ravel_map3. clear - Hall.
    induction Hall as [|v l Hv _ IH]; constructor.
    - subst v. reflexivity.
    - exact IH. }
  assert (Hne' : ravel (map3 nan_to_num0 (fix_axes pred)) <> []).
  { rewrite ravel_map3. destruct (ravel (fix_axes pred)); [contradiction|].
    discriminate. }
  assert (Hmin : amin (map3 nan_to_num0 (fix_axes pred)) = Some (Num 0))
    by (apply reduce_all_zero; auto).
  assert (Hmax : amax (map3 nan_to_num0 (fix_axes pred)) = Some (Num 0))
    by (apply reduce_all_zero; auto).
  unfold normalize_prediction, normalized_floats.
  rewrite Hnan, Hsan, Hmin, Hmax.
  rewrite (rescale_low_contrast W _ (Num 0) (Num 0) eq_refl
             (has_shape_map3 _ _ _ _ Hs)).
  cbn [map_result app]. rewrite quantize_flat.
  f_equal. f_equal. unfold map3. rewrite map_map.
  apply map_ext. intro row. apply map_map.
Qed.

Lemma all_nan_prediction_is_flat_witness :
  snd (normalize_prediction all_nan)
  = Ok [[[127; 127; 255]; [127; 127; 255]]].
Proof.
  refine (f_equal snd (all_nan_prediction_is_flat 2 all_nan _ _ _)).
  - discriminate.
  - repeat constructor.
  - repeat constructor.
Defined.

(** X11.  A prediction without elements is not normalised: nothing is
    printed and the ValueError of the reduction is raised; inside the
    handler this exception is not turned into an HTTPException. *)
Theorem zero_size_prediction_raises
  {Image Pipe Response Generator : Type}
  (E : Env Image Pipe Response Generator) (pred : ndarray3) :
  ravel (fix_axes pred) = [] ->
  normalize_prediction pred
  = ([], Raise (Exception
       "zero-size array to reduction operation minimum which has no identity")) /\
  forall (res : PipeResult Image) (rest : list ndarray3) (w : world Pipe),
    prediction res = Some (pred :: rest) ->
    bind (select_normal_img E res) (encode_response E) w
    = (Raise (Exception
         "zero-size array to reduction operation minimum which has no identity"),
       w).
Proof.
  intro Hempty.
  assert (Hn : normalize_prediction pred
               = ([], Raise (Exception
                    "zero-size array to reduction operation minimum which has no identity"))).
  { unfold normalize_prediction, normalized_floats, sanitize, any_isnan.
    rewrite Hempty. simpl. unfold amin. rewrite Hempty. reflexivity. }
  split; [exact Hn|].
  intros res rest w Hp. unfold bind.
  rewrite (select_normal_img_prediction E res pred rest w Hp), Hn.
  simpl. destruct w. reflexivity.
Qed.

Lemma zero_size_prediction_raises_witness :
  normalize_prediction [[]; []]
  = ([], Raise (Exception
       "zero-size array to reduction operation minimum which has no identity")).
Proof.
  apply (zero_size_prediction_raises
           (sample_env true {| prediction := None; images := None |})
           [[]; []]).
  reflexivity.
Defined.

(** X12.  In the low-contrast branch a prediction with a pixel of neither
    one nor three channels cannot be filled with the flat normal: the
    warning is printed and the broadcasting error is raised. *)
Theorem low_contrast_needs_three_channels
  (pred : ndarray3) (p_min p_max : npfloat)
  (row : list (list npfloat)) (px : list npfloat) :
  amin (sanitize (fix_axes pred)) = Some p_min ->
  amax (sanitize (fix_axes pred)) = Some p_max ->
  fgt (fsub p_max p_min) (Num (1 # 10)) = false ->
  In row (sanitize (fix_axes pred)) -> In px row ->
  length px <> 1%nat -> length px <> 3%nat ->
  normalize_prediction pred
  = ((if any_isnan (fix_axes pred) then [LogNaNWarning] else [])
     ++ [LogStats p_min p_max (mean (sanitize (fix_axes pred)));
         LogLowContrast],
     Raise (Exception "operands could not be broadcast together")).
Proof.
  intros Hmin Hmax Hspan Hrow Hpx H1 H3.
  assert (Hnone : ones_like_times_flat (sanitize (fix_axes pred)) = None).
  { unfold ones_like_times_flat.
    apply (sequence_None _ _ row Hrow).
    apply (sequence_None _ _ px Hpx).
    apply broadcast_flat_None; assumption. }
  unfold normalize_prediction, normalized_floats.
  rewrite Hmin, Hmax. unfold rescale. rewrite Hspan, Hnone. reflexivity.
Qed.

Lemma low_contrast_needs_three_channels_witness :
  snd (normalize_prediction four_channels)
  = Raise (Exception "operands could not be broadcast together").
Proof.
  refine (f_equal snd
    (low_contrast_needs_three_channels four_channels (Num 1) (Num 1)
       [[Num 1; Num 1; Num 1; Num 1]] [Num 1; Num 1; Num 1; Num 1]
       eq_refl eq_refl eq_refl _ _ _ _)).
  - left. reflexivity.
  - left. reflexivity.
  - discriminate.
  - discriminate.
Defined.

(** X13.  A failed load is not remembered: the next call of
    [_load_pipeline], on whatever host state, finds the cache unset and
    asks the model hub again. *)
Theorem failed_load_is_retried
  {Image Pipe Response Generator : Type}
  (E E' : Env Image Pipe Response Generator)
  (w w' : world Pipe) (e : exn) :
  _load_pipeline E w = (Raise e, w') ->
  exists new,
    calls (snd (_load_pipeline E' w')) = new ++ calls w' /\
    In (EvFromPretrained "prs-eth/marigold-normals-v1-1"
          (if cuda_is_available E' then float16 else float32)) new /\
    (forall p0 p,
       from_pretrained E' "prs-eth/marigold-normals-v1-1"
         (if cuda_is_available E' then float16 else float32) = Ok p0 ->
       to E' p0 (if cuda_is_available E' then "cuda" else "cpu")%string = Ok p ->
       _load_pipeline E' w'
       = (Ok p,
          {| _PIPELINE := Some p;
             calls := EvTo (if cuda_is_available E' then "cuda" else "cpu")
                      :: EvFromPretrained "prs-eth/marigold-normals-v1-1"
                           (if cuda_is_available E' then float16 else float32)
                      :: EvLoadPipeline :: calls w' |})).
Proof.
  intro Hfail. destruct (load_pipeline_raises E _ _ _ Hfail) as [_ Hunset].
  rewrite load_pipeline_outcome, Hunset. cbv zeta.
  fold (chosen_dtype E'). fold (chosen_device E').
  destruct (from_pretrained E' _ (chosen_dtype E')) as [p0|e0] eqn:Hhub.
  - destruct (to E' p0 (chosen_device E')) as [p1|e1] eqn:Hto.
    + exists [EvTo (chosen_device E');
              EvFromPretrained "prs-eth/marigold-normals-v1-1" (chosen_dtype E');
              EvLoadPipeline].
      split; [reflexivity|]. split; [right; left; reflexivity|].
      intros q0 p Hp Hp'. inversion Hp; subst q0.
      rewrite Hp' in Hto. inversion Hto; subst p1. reflexivity.
    + exists [EvPrint (LogLoadError (str e1)); EvTo (chosen_device E');
              EvFromPretrained "prs-eth/marigold-normals-v1-1" (chosen_dtype E');
              EvLoadPipeline].
      split; [reflexivity|]. split; [right; right; left; reflexivity|].
      intros q0 p Hp Hp'. inversion Hp; subst q0.
      rewrite Hp' in Hto. discriminate.
  - exists [EvPrint (LogLoadError (str e0));
            EvFromPretrained "prs-eth/marigold-normals-v1-1" (chosen_dtype E');
            EvLoadPipeline].
    split; [reflexivity|]. split; [right; left; reflexivity|].
    intros q0 p Hp. discriminate.
Qed.

Lemma failed_load_is_retried_witness :
  _load_pipeline (sample_env true {| prediction := None; images := None |})
    (snd (_load_pipeline
            (sample_env false {| prediction := None; images := None |})
            fresh_world))
  = (Ok "pipe"%string,
     {| _PIPELINE := Some "pipe"%string;
        calls := [EvTo "cpu";
                  EvFromPretrained "prs-eth/marigold-normals-v1-1" float32;
                  EvLoadPipeline;
                  EvPrint (LogLoadError "model unavailable");
                  EvFromPretrained "prs-eth/marigold-normals-v1-1" float32;
                  EvLoadPipeline] |}).
Proof.
  destruct (failed_load_is_retried
              (sample_env false {| prediction := None; images := None |})
              (sample_env true {| prediction := None; images := None |})
              fresh_world _ (Exception "model unavailable") eq_refl)
    as (new & _ & _ & Hok).
  exact (Hok "pipe"%string "pipe"%string eq_refl eq_refl).
Defined.
